(** * Wikipedia markdown storage: parser, section keys, statistics, store

    A shallow embedding of [src/mongo/wikipedia.py]
    ([WikipediaStorageManager]), of the markdown writer of
    [src/tools/wikipedia_tools.py] and of the helpers of
    [src/mongodb_agent/agent.py] that call the storage manager.

    Python [str] values are modelled as Rocq [string]s whose characters
    ([ascii], 8 bits) stand for the code points U+0000..U+00FF; the
    character classes used by [str.strip], [str.split], [str.lower] and
    the regular expressions [\s], [\w] follow Python on that range.
    The functions that can raise an [IndexError] (list indexing) run in
    the small exception monad [result]. *)

From Stdlib Require Import ZArith Ascii String List Lia.
From stdpp Require Import base gmap strings list.

Open Scope Z_scope.

(** ** Python characters and strings *)

Module Py.

(** [ch.isspace()] / [\s] on U+0000..U+00FF. *)
Definition is_space (c : ascii) : bool :=
  let n := nat_of_ascii c in
  ((9 <=? n)%nat && (n <=? 13)%nat) || ((28 <=? n)%nat && (n <=? 32)%nat)
  || (n =? 133)%nat || (n =? 160)%nat.

(** [ch.isalnum() or ch == '_'], i.e. the class [\w] for [str] patterns,
    on U+0000..U+00FF (ASCII letters and digits, the Latin-1 letters,
    superscript digits and vulgar fractions, and the underscore). *)
Definition is_word (c : ascii) : bool :=
  let n := nat_of_ascii c in
  ((48 <=? n)%nat && (n <=? 57)%nat) || ((65 <=? n)%nat && (n <=? 90)%nat)
  || (n =? 95)%nat || ((97 <=? n)%nat && (n <=? 122)%nat)
  || (n =? 170)%nat || (n =? 178)%nat || (n =? 179)%nat || (n =? 181)%nat
  || (n =? 185)%nat || (n =? 186)%nat || ((188 <=? n)%nat && (n <=? 190)%nat)
  || ((192 <=? n)%nat && (n <=? 214)%nat) || ((216 <=? n)%nat && (n <=? 246)%nat)
  || ((248 <=? n)%nat && (n <=? 255)%nat).

(** [ch.lower()] on U+0000..U+00FF: A-Z and the Latin-1 capitals
    U+00C0..U+00DE (except the multiplication sign U+00D7). *)
Definition lower_char (c : ascii) : ascii :=
  let n := nat_of_ascii c in
  if ((65 <=? n)%nat && (n <=? 90)%nat)
     || ((192 <=? n)%nat && (n <=? 222)%nat && negb (n =? 215)%nat)
  then ascii_of_nat (n + 32) else c.

Fixpoint lower (s : string) : string :=
  match s with
  | EmptyString => EmptyString
  | String c r => String (lower_char c) (lower r)
  end.

Fixpoint lstrip (s : string) : string :=
  match s with
  | EmptyString => EmptyString
  | String c r => if is_space c then lstrip r else s
  end.

Fixpoint rstrip (s : string) : string :=
  match s with
  | EmptyString => EmptyString
  | String c r =>
      let r' := rstrip r in
      if is_space c && String.eqb r' EmptyString then EmptyString
      else String c r'
  end.

(** [s.strip()] *)
Definition strip (s : string) : string := rstrip (lstrip s).

(** [s.split(sep)] for a one-character separator: [""] gives [[""]]. *)
Fixpoint split_on (sep : ascii) (s : string) : list string :=
  match s with
  | EmptyString => [EmptyString]
  | String c r =>
      if Ascii.eqb c sep then EmptyString :: split_on sep r
      else match split_on sep r with
           | h :: t => String c h :: t
           | [] => [String c EmptyString]
           end
  end.

Definition newline : ascii := ascii_of_nat 10.

(** [s.split()]: maximal runs of non-whitespace characters. [cur] is the
    word being read (reversed is not needed: characters are appended). *)
Fixpoint words_aux (cur : string) (s : string) : list string :=
  match s with
  | EmptyString => if String.eqb cur EmptyString then [] else [cur]
  | String c r =>
      if is_space c then
        (if String.eqb cur EmptyString then [] else [cur]) ++ words_aux EmptyString r
      else words_aux (cur ++ String c EmptyString)%string r
  end.

Definition words (s : string) : list string := words_aux EmptyString s.

(** [sep.join(parts)] *)
Fixpoint join (sep : string) (parts : list string) : string :=
  match parts with
  | [] => EmptyString
  | [p] => p
  | p :: ps => (p ++ sep ++ join sep ps)%string
  end.

Definition startswith (prefix s : string) : bool := String.prefix prefix s.

Fixpoint endswith_char (c : ascii) (s : string) : bool :=
  match s with
  | EmptyString => false
  | String d EmptyString => Ascii.eqb c d
  | String _ r => endswith_char c r
  end.

Fixpoint contains_char (c : ascii) (s : string) : bool :=
  match s with
  | EmptyString => false
  | String d r => Ascii.eqb c d || contains_char c r
  end.

(** [s.find(sub)]: the first index, or -1. *)
Definition find (sub s : string) : Z :=
  match String.index 0 sub s with
  | Some n => Z.of_nat n
  | None => -1
  end.

(** [s[a:b]] for [0 <= a]; Python clamps both ends to the length. *)
Definition slice (s : string) (a b : nat) : string :=
  String.substring a (b - a) s.

Definition slice_from (s : string) (a : nat) : string :=
  String.substring a (String.length s - a) s.

(** [s.replace(old, new)] for one-character [old] and [new]. *)
Fixpoint replace_char (old new : ascii) (s : string) : string :=
  match s with
  | EmptyString => EmptyString
  | String c r =>
      String (if Ascii.eqb c old then new else c) (replace_char old new r)
  end.

(** Truthiness of a [list]. *)
Definition list_truthy {A} (l : list A) : bool :=
  match l with [] => false | _ => true end.

(** Truthiness of a [str]. *)
Definition truthy (s : string) : bool := negb (String.eqb s EmptyString).

End Py.

(** ** Section key normalizer ([_normalize_section_key]) *)

(** [re.sub(r'[^\w\s]', '', s)] *)
Fixpoint remove_special (s : string) : string :=
  match s with
  | EmptyString => EmptyString
  | String c r =>
      if Py.is_word c || Py.is_space c then String c (remove_special r)
      else remove_special r
  end.

(** [re.sub(r'\s+', '_', s)]: every maximal whitespace run becomes one
    underscore; [in_run] tells whether the previous character was
    whitespace. *)
Fixpoint underscore_runs (in_run : bool) (s : string) : string :=
  match s with
  | EmptyString => EmptyString
  | String c r =>
      if Py.is_space c then
        if in_run then underscore_runs true r
        else String "_" (underscore_runs true r)
      else String c (underscore_runs false r)
  end.

Definition _normalize_section_key (title : string) : string :=
  let key := remove_special (Py.lower title) in
  underscore_runs false key.

(** ** Exceptions *)

Inductive py_exn := IndexError.

Inductive result (A : Type) : Type :=
| Ok (a : A)
| Raise (e : py_exn).
Arguments Ok {A} a.
Arguments Raise {A} e.

Definition rbind {A B} (m : result A) (f : A -> result B) : result B :=
  match m with
  | Ok a => f a
  | Raise e => Raise e
  end.

(** [l[i]] for [0 <= i]: raises [IndexError] out of range. *)
Definition py_index {A} (l : list A) (i : nat) : result A :=
  match nth_error l i with
  | Some x => Ok x
  | None => Raise IndexError
  end.

(** ** Documents *)

(** A section dict built by [_add_section_to_document]; the keys
    ['parent_section'] and ['subsections'] are only present once set. *)
Record section := mk_section {
  title : string;
  content : string;
  level : Z;
  word_count : nat;
  character_count : nat;
  parent_section : option string;
  subsections : option (list string)
}.

(** An entry [{'key', 'title', 'level'}] of ['section_hierarchy']. *)
Record hentry := mk_hentry {
  hkey : string;
  htitle : string;
  hlevel : Z
}.

(** The document dict built by [parse_markdown_content]. The constant
    fields ['created_at'] (a timestamp) and ['content_type'] play no part
    below and are left out; the promoted optional keys ['query'], ['url'],
    ['format'], ['extracted_at'] are [None] while absent. *)
Record document := mk_document {
  metadata : gmap string string;
  query : option string;
  url : option string;
  format : option string;
  extracted_at : option string;
  summary : string;
  sections : gmap string section;
  section_hierarchy : list hentry
}.

Definition empty_document : document :=
  mk_document ∅ None None None None "" ∅ [].

Definition set_summary (d : document) (s : string) : document :=
  mk_document (metadata d) (query d) (url d) (format d) (extracted_at d)
    s (sections d) (section_hierarchy d).

Definition set_sections (d : document) (secs : gmap string section)
    (h : list hentry) : document :=
  mk_document (metadata d) (query d) (url d) (format d) (extracted_at d)
    (summary d) secs h.

Definition set_parent (s : section) (pk : string) : section :=
  mk_section (title s) (content s) (level s) (word_count s)
    (character_count s) (Some pk) (subsections s).

(** [parent['subsections'].append(key)], creating the list if absent. *)
Definition add_subsection (p : section) (key : string) : section :=
  mk_section (title p) (content p) (level p) (word_count p)
    (character_count p) (parent_section p)
    (Some (default [] (subsections p) ++ [key])).

(** ** [_find_parent_section] *)

Fixpoint find_parent_rev (rev_h : list hentry) (current_level : Z)
    : option string :=
  match rev_h with
  | [] => None
  | e :: r =>
      if hlevel e <? current_level then Some (hkey e)
      else find_parent_rev r current_level
  end.

Definition _find_parent_section (hierarchy : list hentry)
    (current_level : Z) : option string :=
  find_parent_rev (rev hierarchy) current_level.

(** ** [_add_section_to_document] *)

Definition nl : string := String Py.newline EmptyString.

Definition _add_section_to_document (d : document) (section_title : string)
    (content_lines : list string) (lvl : Z) : document :=
  let section_key := _normalize_section_key section_title in
  let section_content := Py.strip (Py.join nl content_lines) in
  let section_data :=
    mk_section section_title section_content lvl
      (length (Py.words section_content)) (String.length section_content)
      None None in
  let '(section_data, secs) :=
    if 2 <? lvl then
      match _find_parent_section (section_hierarchy d) lvl with
      | Some parent_key =>
          if Py.truthy parent_key then
            (set_parent section_data parent_key,
             match sections d !! parent_key with
             | Some p => <[parent_key := add_subsection p section_key]> (sections d)
             | None => sections d
             end)
          else (section_data, sections d)
      | None => (section_data, sections d)
      end
    else (section_data, sections d) in
  set_sections d (<[section_key := section_data]> secs)
    (section_hierarchy d ++ [mk_hentry section_key section_title lvl]).

(** ** Metadata lines *)

(** The body of [if colon_pos > 2:] for a line [**Key:** Value]. *)
Definition metadata_entry (line : string) : option (string * string) :=
  let colon_pos := Py.find ":**" line in
  if 2 <? colon_pos then
    let key_part := Py.slice line 2 (Z.to_nat colon_pos) in
    let value := Py.strip (Py.slice_from line (Z.to_nat colon_pos + 3)) in
    let key := Py.replace_char " " "_" (Py.lower (Py.strip key_part)) in
    Some (key, value)
  else None.

Definition add_metadata (d : document) (kv : string * string) : document :=
  let '(key, value) := kv in
  mk_document (<[key := value]> (metadata d))
    (if String.eqb key "query" then Some value else query d)
    (if String.eqb key "url" then Some value else url d)
    (if String.eqb key "extract_format" then Some value else format d)
    (if String.eqb key "extracted_on" then Some value else extracted_at d)
    (summary d) (sections d) (section_hierarchy d).

(** ** The heading classifier ([parse_markdown_content], lines 80-176) *)

Fixpoint count_lead (p : ascii -> bool) (s : string) : nat :=
  match s with
  | EmptyString => O
  | String c r => if p c then S (count_lead p r) else O
  end.

Fixpoint sdrop (n : nat) (s : string) : string :=
  match n, s with
  | O, _ => s
  | S n', String _ r => sdrop n' r
  | S _, EmptyString => EmptyString
  end.

(** [re.match(r'^(#{2,6})\s+(.+)$', line)], as [(len(group(1)), group(2))].
    The lines are pieces of [content.split('\n')], so they hold no
    newline; a newline makes the model fail the match. [#{2,6}] takes all
    leading hashes (a seventh hash cannot be followed by [\s]); [\s+] takes
    all following whitespace, and gives one character back to [.+] when
    nothing else is left. *)
Definition header_match (line : string) : option (nat * string) :=
  let n := count_lead (Ascii.eqb "#") line in
  if (2 <=? n)%nat && (n <=? 6)%nat then
    let rest := sdrop n line in
    let w := count_lead Py.is_space rest in
    let body := sdrop w rest in
    if (w =? 0)%nat || Py.contains_char Py.newline rest then None
    else if Py.truthy body then Some (n, body)
    else if (2 <=? w)%nat then Some (n, sdrop (w - 1) rest)
    else None
  else None.

(** What the loop body does with the (stripped) line [i]. *)
Inductive line_kind :=
| TitleLine                           (* starts with '#': skipped *)
| SeparatorLine                       (* exactly '---' *)
| MetadataLine                        (* '**...:...' before the separator *)
| SkippedLine                         (* before the separator, or empty *)
| HeaderLine (hashes : nat) (t : string)  (* markdown header match *)
| InferredHeading                     (* plain-text section title *)
| ContentLine.

(** The first five conditions of the plain-text title test, with
    Python's short-circuit [and]: [lines[i + 1]] is read only when
    [i + 1 < len(lines)]. *)
Definition title_candidate (lines : list string) (i : nat) (line : string)
    : result bool :=
  if (String.length line <? 80)%nat then
    if (i + 1 <? length lines)%nat then
      rbind (py_index lines (i + 1)) (fun next_line =>
        Ok (Py.truthy (Py.strip next_line)
            && negb (Py.endswith_char "." line)
            && negb (Py.endswith_char "," line)
            && negb (Py.endswith_char ";" line)
            && (length (Py.words line) <=? 8)%nat))
    else Ok false
  else Ok false.

(** [for j in range(js...): if lines[j].strip(): acc.append(lines[j].strip())] *)
Fixpoint collect_nonempty (lines : list string) (js : list nat)
    (acc : list string) : result (list string) :=
  match js with
  | [] => Ok acc
  | j :: js' =>
      rbind (py_index lines j) (fun lj =>
        collect_nonempty lines js'
          (if Py.truthy (Py.strip lj) then acc ++ [Py.strip lj] else acc))
  end.

(** [next_few_lines] for [range(i + 1, min(i + 4, len(lines)))]. *)
Definition next_few_lines (lines : list string) (i : nat) : result (list string) :=
  collect_nonempty lines
    (seq (i + 1) (Nat.min (i + 4) (length lines) - (i + 1))) [].

Definition classify (separator_found : bool) (lines : list string) (i : nat)
    (line : string) : result line_kind :=
  if Py.startswith "#" line then Ok TitleLine
  else if String.eqb line "---" then Ok SeparatorLine
  else if negb separator_found && Py.startswith "**" line
          && Py.contains_char ":" line then Ok MetadataLine
  else if negb separator_found || negb (Py.truthy line) then Ok SkippedLine
  else match header_match line with
       | Some (h, t) => Ok (HeaderLine h t)
       | None =>
           rbind (title_candidate lines i line) (fun cand =>
             if cand then
               rbind (next_few_lines lines i) (fun nxt =>
                 if Py.list_truthy nxt
                    && existsb (Py.endswith_char ".") (firstn 2 nxt)
                 then Ok InferredHeading else Ok ContentLine)
             else Ok ContentLine)
       end.

(** ** The parser loop *)

Record pstate := mk_pstate {
  doc : document;
  current_section : option string;
  current_content : list string;
  separator_found : bool
}.

Definition truthy_opt (o : option string) : bool :=
  match o with Some s => Py.truthy s | None => false end.

(** "Save previous section": [Some d'] when something was saved. *)
Definition save_previous (d : document) (cur : option string)
    (buf : list string) (lvl : Z) : option document :=
  match cur with
  | Some t =>
      if String.eqb t "summary" && Py.list_truthy buf then
        Some (set_summary d (Py.strip (Py.join nl buf)))
      else if Py.truthy t && Py.list_truthy buf then
        Some (_add_section_to_document d t buf lvl)
      else None
  | None => None
  end.

Definition apply_kind (k : line_kind) (line : string) (st : pstate) : pstate :=
  let d := doc st in
  let cur := current_section st in
  let buf := current_content st in
  let sep := separator_found st in
  match k with
  | TitleLine => st
  | SeparatorLine => mk_pstate d cur buf true
  | MetadataLine =>
      match metadata_entry line with
      | Some kv => mk_pstate (add_metadata d kv) cur buf sep
      | None => st
      end
  | SkippedLine => st
  | HeaderLine h t =>
      (* the saved section gets the level of the new header *)
      let d' := match save_previous d cur buf (Z.of_nat h - 1) with
                | Some d' => d' | None => d end in
      mk_pstate d' (Some (Py.strip t)) [] sep
  | InferredHeading =>
      match save_previous d cur buf 2 with
      | Some d' => mk_pstate d' (Some line) [] sep
      | None => mk_pstate d (Some line) buf sep
      end
  | ContentLine =>
      if Py.truthy line then
        mk_pstate d (if truthy_opt cur then cur else Some "summary")
          (buf ++ [line]) sep
      else st
  end.

(** [while i < len(lines)]; every branch of the body does [i += 1], so
    [fuel = len(lines) - i] iterations remain. *)
Fixpoint parse_lines (fuel : nat) (lines : list string) (i : nat)
    (st : pstate) : result pstate :=
  match fuel with
  | O => Ok st
  | S fuel' =>
      if (i <? length lines)%nat then
        rbind (py_index lines i) (fun raw =>
          let line := Py.strip raw in
          rbind (classify (separator_found st) lines i line) (fun k =>
            parse_lines fuel' lines (S i) (apply_kind k line st)))
      else Ok st
  end.

Definition init_pstate : pstate := mk_pstate empty_document None [] false.

Definition parse_markdown_content (text : string) : result document :=
  let lines := Py.split_on Py.newline text in
  rbind (parse_lines (length lines) lines 0 init_pstate) (fun st =>
    (* save final section *)
    Ok (match save_previous (doc st) (current_section st)
                (current_content st) 2 with
        | Some d => d
        | None => doc st
        end)).

(** ** Statistics ([store_wikipedia_document], lines 296-303) *)

Record statistics := mk_statistics {
  total_sections : nat;
  total_words : nat;
  total_characters : nat;
  hierarchy_depth : Z
}.

(** [max((s['level'] for s in hierarchy), default=0)] *)
Definition max_level (h : list hentry) : Z :=
  match h with
  | [] => 0
  | e :: r => fold_left (fun m e' => Z.max m (hlevel e')) r (hlevel e)
  end.

Definition document_statistics (d : document) : statistics :=
  mk_statistics
    (size (sections d))
    (map_fold (fun _ s acc => (acc + word_count s)%nat) 0%nat (sections d))
    (String.length (summary d)
     + map_fold (fun _ s acc => (acc + character_count s)%nat) 0%nat (sections d))
    (max_level (section_hierarchy d)).

(** ** [_highlight_text] *)

(** Case-insensitive equality of two characters, as [re.IGNORECASE]
    compares them on U+0000..U+00FF. *)
Definition ci_eq (a b : ascii) : bool :=
  Ascii.eqb (Py.lower_char a) (Py.lower_char b).

(** [p] matches (case-insensitively) at the start of [s]. *)
Fixpoint ci_prefix (p s : string) : bool :=
  match p, s with
  | EmptyString, _ => true
  | String a p', String b s' => ci_eq a b && ci_prefix p' s'
  | String _ _, EmptyString => false
  end.

(** [re.search(re.escape(term), text, re.IGNORECASE).start()]. *)
Fixpoint ci_search (p s : string) : option nat :=
  if ci_prefix p s then Some O
  else match s with
       | EmptyString => None
       | String _ r => option_map S (ci_search p r)
       end.

(** [re.sub(f'({re.escape(term)})', r'**\1**', s, flags=re.IGNORECASE)]
    for a non-empty [term]: non-overlapping matches, left to right; a
    match consumes [length term] characters, so [length s] steps suffice. *)
Fixpoint sub_matches (fuel : nat) (p s : string) : string :=
  match fuel with
  | O => s
  | S f =>
      match s with
      | EmptyString => EmptyString
      | String c r =>
          if ci_prefix p s then
            ("**" ++ String.substring 0 (String.length p) s ++ "**"
             ++ sub_matches f p (sdrop (String.length p) s))%string
          else String c (sub_matches f p r)
      end
  end.

Definition highlight_all (p s : string) : string :=
  sub_matches (String.length s) p s.

Definition _highlight_text (text search_term : string) (context_chars : nat)
    : string :=
  if negb (Py.truthy text) || negb (Py.truthy search_term) then text
  else
    match ci_search search_term text with
    | None =>
        if (context_chars <? String.length text)%nat
        then (Py.slice text 0 context_chars ++ "...")%string
        else text
    | Some p =>
        let half := Nat.div context_chars 2 in
        (* max(0, match.start() - context_chars // 2) *)
        let start := (p - half)%nat in
        let end_ := Nat.min (String.length text)
                      (p + String.length search_term + half)%nat in
        let excerpt := Py.slice text start end_ in
        let excerpt := if (0 <? start)%nat then ("..." ++ excerpt)%string
                       else excerpt in
        let excerpt := if (end_ <? String.length text)%nat
                       then (excerpt ++ "...")%string else excerpt in
        highlight_all search_term excerpt
    end.

(** ** Storage ([store_wikipedia_document], [_find_duplicate_documents]) *)

(** A stored document: the parsed document with the keys
    [store_wikipedia_document] adds to it (['source_file'] only when
    given, ['statistics'], and ['updated_at'] on an update). *)
Record stored := mk_stored {
  sbody : document;
  source_file : option string;
  sstatistics : statistics;
  updated_at : option Z
}.

(** A collection: its documents with their [_id], in natural order. The
    [_id]s generated by [insert_one] are modelled as integers. *)
Definition collection := list (Z * stored).

(** [collection.find_one({field: v})]: the first document, in natural
    order, whose [field] equals [v]. *)
Definition find_one (field : stored -> option string) (v : string)
    (c : collection) : option (Z * stored) :=
  List.find (fun e => match field (snd e) with
                      | Some w => String.eqb w v
                      | None => false
                      end) c.

Definition query_of (s : stored) : option string := query (sbody s).
Definition url_of (s : stored) : option string := url (sbody s).

(** [a or b] on values that may be absent ([None]). *)
Definition or_opt (a b : option string) : option string :=
  if truthy_opt a then a else b.

Definition option_list {A} (o : option A) : list A :=
  match o with Some x => [x] | None => [] end.

(** [document.get('query') or document.get('metadata', {}).get('query')] *)
Definition query_value (s : stored) : option string :=
  or_opt (query (sbody s)) (metadata (sbody s) !! "query").

Definition url_value (s : stored) : option string :=
  or_opt (url (sbody s)) (metadata (sbody s) !! "url").

Definition _find_duplicate_documents (c : collection) (s : stored)
    : list (Z * stored) :=
  let duplicates :=
    match query_value s with
    | Some q => if Py.truthy q then option_list (find_one query_of q c) else []
    | None => []
    end in
  match url_value s with
  | Some u =>
      if Py.truthy u && negb (Py.list_truthy duplicates)
      then option_list (find_one url_of u c) else duplicates
  | None => duplicates
  end.

(** The store: the collection's documents and the next [_id] that
    [insert_one] generates ([ObjectId]s are never generated twice). *)
Record store := mk_store {
  docs : collection;
  next_id : Z
}.

(** Every stored [_id] was generated before [next_id]. *)
Definition ids_fresh (st : store) : bool :=
  forallb (fun e => fst e <? next_id st) (docs st).

Definition insert_one (s : stored) (st : store) : Z * store :=
  let n := next_id st in (n, mk_store (docs st ++ [(n, s)]) (n + 1)).

(** [delete_one({'_id': i})] *)
Fixpoint delete_first (i : Z) (c : collection) : collection :=
  match c with
  | [] => []
  | e :: r => if Z.eqb (fst e) i then r else e :: delete_first i r
  end.

Definition delete_one (i : Z) (st : store) : store :=
  mk_store (delete_first i (docs st)) (next_id st).

(** [replace_one({'_id': i}, s)]: the document keeps its [_id]. *)
Fixpoint replace_first (i : Z) (s : stored) (c : collection) : collection :=
  match c with
  | [] => []
  | e :: r => if Z.eqb (fst e) i then (i, s) :: r else e :: replace_first i s r
  end.

Definition replace_one (i : Z) (s : stored) (st : store) : store :=
  mk_store (replace_first i s (docs st)) (next_id st).

(** The document with a given [_id]. *)
Definition get_doc (i : Z) (c : collection) : option stored :=
  option_map snd (List.find (fun e => Z.eqb (fst e) i) c).

(** The answers of [_prompt_duplicate_action]. *)
Inductive action := Skip | Add | Update | Overwrite.

Definition set_updated (s : stored) (now : Z) : stored :=
  mk_stored (sbody s) (source_file s) (sstatistics s) (Some now).

(** Lines 291-303: source file and statistics. *)
Definition prepare (d : document) (source : option string) : stored :=
  mk_stored d (if truthy_opt source then source else None)
    (document_statistics d) None.

(** The code point NUL. *)
Definition nul : ascii := ascii_of_nat 0.

(** BSON field names are C strings: pymongo raises [InvalidDocument] when
    a key holds a NUL. The keys that come from the input are those of
    ['metadata'] and of ['sections']; every other key is a constant. *)
Definition bson_keys_ok (s : stored) : bool :=
  forallb (fun k => negb (Py.contains_char nul k))
    (map fst (map_to_list (metadata (sbody s)))) &&
  forallb (fun k => negb (Py.contains_char nul k))
    (map fst (map_to_list (sections (sbody s)))).

(** Whether [insert_one] / [replace_one] of [s], carrying the [_id]
    [i] ([None]: no [_id] key), succeeds: pymongo can encode it and
    [doc_fits] holds, where [doc_fits] stands for the remaining checks
    of the driver and the server ([DocumentTooLarge] beyond
    [maxBsonObjectSize], 16 MiB, and the server's validation). *)
Definition accepts (doc_fits : option Z -> stored -> bool) (i : option Z)
    (s : stored) : bool :=
  bson_keys_ok s && doc_fits i s.

(** Lines 311-345, once the collection is available: the returned
    [_id] ([None] for [return None], also when a write raises and the
    [except] returns [None]) and the collection afterwards. [prompt]
    stands for [_prompt_duplicate_action] and [now] for
    [datetime.now()]. [insert_one] adds the generated [_id] to the
    document before encoding it; the interactive update sets
    [document['_id']], the non-interactive one does not. *)
Definition store_in (doc_fits : option Z -> stored -> bool) (st : store) (s : stored)
    (interactive : bool) (prompt : stored -> list (Z * stored) -> action) (now : Z)
    : option Z * store :=
  let existing := _find_duplicate_documents (docs st) s in
  let insert (st' : store) :=
    if accepts doc_fits (Some (next_id st')) s
    then let '(n, st'') := insert_one s st' in (Some n, st'')
    else (None, st') in
  let update (carried : option Z) (i : Z) :=
    if accepts doc_fits carried (set_updated s now)
    then (Some i, replace_one i (set_updated s now) st)
    else (None, st) in
  match existing with
  | [] => insert st
  | e0 :: _ =>
      if interactive then
        match prompt s existing with
        | Skip => (None, st)
        | Overwrite =>
            insert (fold_left (fun st' e => delete_one (fst e) st') existing st)
        | Update => update (Some (fst e0)) (fst e0)
        | Add => insert st
        end
      else update None (fst e0)
  end.

(** [store_wikipedia_document]: [coll] is [None] when the connection or
    the collection cannot be had (both [return None]); parsing is pure,
    so it does not matter that it runs between the two checks. *)
Definition store_wikipedia_document (doc_fits : option Z -> stored -> bool)
    (coll : option store)
    (content : string) (source : option string) (interactive : bool)
    (prompt : stored -> list (Z * stored) -> action) (now : Z)
    : option Z * option store :=
  match coll with
  | None => (None, None)
  | Some c =>
      match parse_markdown_content content with
      | Raise _ => (None, Some c)
      | Ok d =>
          let '(r, st') := store_in doc_fits c (prepare d source) interactive prompt now in
          (r, Some st')
      end
  end.


(** ** The markdown writer ([src/tools/wikipedia_tools.py]) *)

(** The characters of the class of the first [re.sub] of
    [_sanitize_filename]: [<], [>], [:], the double quote, [/], the
    backslash, [|], [?] and [*] (codes 60, 62, 58, 34, 47, 92, 124, 63,
    42). *)
Definition invalid_filename_char (c : ascii) : bool :=
  existsb (fun n => (nat_of_ascii c =? n)%nat) [60; 62; 58; 34; 47; 92; 124; 63; 42]%nat.

(** The first [re.sub] of [_sanitize_filename]: the characters above
    are removed. *)
Fixpoint remove_invalid (s : string) : string :=
  match s with
  | EmptyString => EmptyString
  | String c r =>
      if invalid_filename_char c then remove_invalid r
      else String c (remove_invalid r)
  end.

Fixpoint lstrip_char (ch : ascii) (s : string) : string :=
  match s with
  | EmptyString => EmptyString
  | String c r => if Ascii.eqb c ch then lstrip_char ch r else s
  end.

Fixpoint rstrip_char (ch : ascii) (s : string) : string :=
  match s with
  | EmptyString => EmptyString
  | String c r =>
      let r' := rstrip_char ch r in
      if Ascii.eqb c ch && String.eqb r' EmptyString then EmptyString
      else String c r'
  end.

(** [s.strip(ch)] *)
Definition strip_char (ch : ascii) (s : string) : string :=
  rstrip_char ch (lstrip_char ch s).

Definition _sanitize_filename (text : string) : string :=
  let sanitized := remove_invalid text in
  let sanitized := underscore_runs false sanitized in
  strip_char "_" (Py.slice sanitized 0 50).

(** A [WikipediaPageSection]: title, text and subsections. *)
#[warnings="-register-all"]
Inductive wsection := mk_wsection {
  wtitle : string;
  wtext : string;
  wsections : list wsection
}.

(** ["#" * n] *)
Fixpoint hashes (n : nat) : string :=
  match n with O => EmptyString | S k => String "#" (hashes k) end.

(** One iteration of the loop of [_format_sections_to_markdown]: the
    heading, the text when not blank, then the subsections one level
    deeper (the inner [fix] is the recursive call on them). *)
Fixpoint format_section (section : wsection) (level : nat) : string :=
  match section with
  | mk_wsection title text subs =>
      let heading := hashes (Nat.min level 6) in
      (heading ++ " " ++ title ++ nl ++ nl ++
       (if Py.truthy (Py.strip text) then Py.strip text ++ nl ++ nl
        else EmptyString) ++
       (if Py.list_truthy subs then
          (fix fmt (l : list wsection) : string :=
             match l with
             | [] => EmptyString
             | s :: r => format_section s (level + 1) ++ fmt r
             end) subs
        else EmptyString))%string
  end.

Definition _format_sections_to_markdown (sections : list wsection)
    (level : nat) : string :=
  String.concat EmptyString (map (fun s => format_section s level) sections).

(** What [save_full_text_to_markdown] writes to a markdown file, i.e.
    when [extract_format.lower() != 'html'] (lines 226-246);
    [title], [query], [url], [summary], [full_text], [sections] are the
    fields of [get_full_text]'s result, [timestamp] its timestamp. *)
Definition markdown_file (title query url extract_format timestamp : string)
    (preserve_hierarchy : bool) (summary full_text : string)
    (sections : list wsection) : string :=
  let format := Py.lower extract_format in
  ("# " ++ title ++ nl ++ nl ++
   "**Query:** " ++ query ++ nl ++ nl ++
   "**URL:** [" ++ url ++ "](" ++ url ++ ")" ++ nl ++ nl ++
   "**Extract Format:** " ++ format ++ nl ++ nl ++
   "**Hierarchy Preserved:** " ++ (if preserve_hierarchy then "Yes" else "No")
     ++ nl ++ nl ++
   "**Extracted on:** " ++ timestamp ++ nl ++ nl ++
   "---" ++ nl ++ nl ++
   (if preserve_hierarchy && String.eqb format "wiki" then
      "## Summary" ++ nl ++ nl ++ summary ++ nl ++ nl ++
      (if Py.list_truthy sections then _format_sections_to_markdown sections 2
       else "*No sections found.*" ++ nl ++ nl)
    else full_text))%string.

(** ** [_prompt_duplicate_action] (lines 421-437) *)

(** What [input()] gives: a line, or [KeyboardInterrupt]. Once the
    lines of standard input are used up, [input()] raises [EOFError]. *)
Inductive input_event :=
| InputLine (s : string)
| InputInterrupt.

(** The [if]/[elif] chain on [choice = input(...).strip()]. *)
Definition choice_action (choice : string) : option action :=
  if String.eqb choice "1" || String.eqb (Py.lower choice) "skip" then Some Skip
  else if String.eqb choice "2" || String.eqb (Py.lower choice) "add" then Some Add
  else if String.eqb choice "3" || String.eqb (Py.lower choice) "update" then Some Update
  else if String.eqb choice "4" || String.eqb (Py.lower choice) "overwrite"
  then Some Overwrite
  else None.

(** The [while True] loop: an invalid choice asks again; [EOFError]
    (no input left) and [KeyboardInterrupt] give ['skip']. The printed
    summary of the documents plays no part in the answer. *)
Fixpoint prompt_loop (inputs : list input_event) : action :=
  match inputs with
  | [] => Skip
  | InputInterrupt :: _ => Skip
  | InputLine s :: rest =>
      match choice_action (Py.strip s) with
      | Some a => a
      | None => prompt_loop rest
      end
  end.

Definition _prompt_duplicate_action (new_document : stored)
    (existing_docs : list (Z * stored)) (inputs : list input_event) : action :=
  prompt_loop inputs.

(** ** Retrieval ([get_wikipedia_document], lines 501-544) *)

(** [{field: {'$regex': re.escape(term), '$options': 'i'}}] (and
    [re.search(re.escape(term), v, re.IGNORECASE)]): the field is present
    and contains [term], case-insensitively. Whether the server accepts
    the pattern at all is [regex_ok], checked where a filter is sent. *)
Definition regex_ci (term : string) (field : option string) : bool :=
  match field with
  | Some v => match ci_search term v with Some _ => true | None => false end
  | None => false
  end.

(** The characters [re.escape] prefixes with a backslash (Python 3.7+:
    [()[]{}?*+-|^$\.&~#], space, [\t\n\r\v\f]). *)
Definition re_special (c : ascii) : bool :=
  existsb (Ascii.eqb c)
    (list_ascii_of_string "()[]{}?*+-|^$\.&~# " ++
     map ascii_of_nat [9; 10; 13; 11; 12]%nat).

Fixpoint re_escape (s : string) : string :=
  match s with
  | EmptyString => EmptyString
  | String c r =>
      if re_special c then String "\" (String c (re_escape r))
      else String c (re_escape r)
  end.

(** Bytes of the UTF-8 encoding (code points U+0000..U+00FF). *)
Fixpoint utf8_length (s : string) : nat :=
  match s with
  | EmptyString => O
  | String c r => ((if (nat_of_ascii c <? 128)%nat then 1 else 2) + utf8_length r)%nat
  end.

(** [RegexMatchExpression::kMaxPatternSize] of the MongoDB server. *)
Definition kMaxPatternSize : Z := 32764.

(** The server refuses a [$regex] whose pattern holds a NUL byte or is
    longer than [kMaxPatternSize] bytes (the query then raises, and the
    [except] of the caller answers); an escaped pattern is otherwise a
    valid regular expression. *)
Definition regex_ok (term : string) : bool :=
  negb (Py.contains_char nul (re_escape term)) &&
  (Z.of_nat (utf8_length (re_escape term)) <=? kMaxPatternSize).

(** The ['$or'] filter on ['query'] and ['metadata.query']. *)
Definition title_filter (term : string) (s : stored) : bool :=
  regex_ci term (query_of s) || regex_ci term (metadata (sbody s) !! "query").

Section Retrieval.

(** [ObjectId(doc_id)]: [None] when it raises [InvalidId] (the
    exception is caught and [None] returned). *)
Variable object_id : string -> option Z.

(** [coll] is [None] when the connection or the collection cannot be
    had; the result is the document with its [_id]. *)
Definition get_wikipedia_document (coll : option collection)
    (query_arg doc_id : option string) : option (Z * stored) :=
  match coll with
  | None => None
  | Some c =>
      if truthy_opt doc_id then
        match object_id (default "" doc_id) with
        | Some i => List.find (fun e => Z.eqb (fst e) i) c
        | None => None
        end
      else if truthy_opt query_arg then
        if regex_ok (default "" query_arg)
        then List.find (fun e => title_filter (default "" query_arg) (snd e)) c
        else None
      else None
  end.

(** ** [get_document_section] (lines 546-588) *)

Inductive section_result :=
| StoredSection (s : section)
(** [{'title': 'Summary', 'content': ..., 'level': 1, 'word_count': ...,
    'character_count': ...}] *)
| SummarySection (stitle content : string) (slevel : Z)
    (sword_count scharacter_count : nat).

(** The lookup in the retrieved document. The loop over
    [sections.items()] runs in the dict's insertion order, which a
    [gmap] does not keep; [map_to_list] stands for it. *)
Definition section_in_document (d : document) (section_title : string)
    : option section_result :=
  let section_key := _normalize_section_key section_title in
  match sections d !! section_key with
  | Some s => Some (StoredSection s)
  | None =>
      match List.find (fun ks => String.eqb (Py.lower (title (snd ks)))
                                   (Py.lower section_title))
              (map_to_list (sections d)) with
      | Some ks => Some (StoredSection (snd ks))
      | None =>
          if String.eqb (Py.lower section_title) "summary"
             || String.eqb (Py.lower section_title) "introduction"
          then Some (SummarySection "Summary" (summary d) 1
                       (length (Py.words (summary d)))
                       (String.length (summary d)))
          else None
      end
  end.

Definition get_document_section (coll : option collection)
    (query_arg section_title : string) : option section_result :=
  match get_wikipedia_document coll (Some query_arg) None with
  | None => None
  | Some e => section_in_document (sbody (snd e)) section_title
  end.

End Retrieval.

(** ** [search_content] (lines 590-674) *)

(** The filter built from [search_in]. ['sections'] is stored as a
    dict, that is an embedded document: [$elemMatch] only matches array
    fields, so the clauses on ['sections'] never match. *)
Definition search_filter (search_term search_in : string) (s : stored) : bool :=
  if String.eqb search_in "titles" then title_filter search_term s
  else if String.eqb search_in "summaries" then
    regex_ci search_term (Some (summary (sbody s)))
  else if String.eqb search_in "sections" then false
  else regex_ci search_term (query_of s)
       || regex_ci search_term (Some (summary (sbody s)))
       || false.

Inductive smatch :=
| SummaryMatch (mcontent : string)
| SectionMatch (section_title mcontent : string).

Record search_result := mk_search_result {
  rid : Z;
  rtitle : string;
  rurl : string;
  rmatches : list smatch
}.

(** The result built for one document found. The loop over
    [sections.items()] follows [map_to_list] (see above). *)
Definition search_result_of (search_term : string) (e : Z * stored) : search_result :=
  let d := sbody (snd e) in
  mk_search_result (fst e) (default "Unknown" (query d))
    (default "" (metadata d !! "url"))
    ((if regex_ci search_term (Some (summary d))
      then [SummaryMatch (_highlight_text (summary d) search_term 150)] else [])
     ++ flat_map (fun ks =>
          if regex_ci search_term (Some (content (snd ks)))
          then [SectionMatch (title (snd ks))
                  (_highlight_text (content (snd ks)) search_term 150)]
          else [])
        (map_to_list (sections d))).

Definition search_content (coll : option collection)
    (search_term search_in : string) : list search_result :=
  match coll with
  | None => []
  | Some c =>
      if regex_ok search_term
      then map (search_result_of search_term)
             (List.filter (fun e => search_filter search_term search_in (snd e)) c)
      else []
  end.

(** ** [list_wikipedia_documents] (lines 439-499) *)

Record listing := mk_listing {
  lid : Z;
  ltitle : string;
  lurl : string;
  summary_preview : string;
  lupdated_at : option Z;
  (** ['stats'] and ['sections'] ([title], [level] of each hierarchy
      entry), present when [include_stats] *)
  lstats : option (statistics * list (string * Z))
}.

Definition listing_of (include_stats : bool) (e : Z * stored) : listing :=
  let s := snd e in
  let d := sbody s in
  mk_listing (fst e)
    (if truthy_opt (query d) then default "" (query d)
     else default "Unknown" (metadata d !! "query"))
    (default "" (metadata d !! "url"))
    (if (200 <? String.length (summary d))%nat
     then (Py.slice (summary d) 0 200 ++ "...")%string
     else summary d)
    (updated_at s)
    (if include_stats
     then Some (sstatistics s,
                map (fun h => (htitle h, hlevel h)) (section_hierarchy d))
     else None).

Definition list_wikipedia_documents (coll : option collection)
    (include_stats : bool) : list listing :=
  match coll with
  | None => []
  | Some c => map (listing_of include_stats) c
  end.

(** * Callers in [src/mongodb_agent/agent.py] *)

(** [xs[:stop]]: a negative [stop] counts from the end. *)
Definition slice_to {A} (xs : list A) (stop : Z) : list A :=
  if 0 <=? stop then firstn (Z.to_nat stop) xs
  else firstn (Z.to_nat (Z.of_nat (length xs) + stop)) xs.

(** The part of the returned dict the limit decides: ['data'],
    ['metadata']['limited'] and the count (['total_found'] or
    ['total_matches']). *)
Record limited_result (A : Type) := mk_limited {
  ldata : list A;
  llimited : bool;
  ltotal : nat
}.
Arguments mk_limited {A} ldata llimited ltotal.
Arguments ldata {A} _.
Arguments llimited {A} _.
Arguments ltotal {A} _.

(** [if limit and len(xs) > limit: xs = xs[:limit]; limited = True
    else: limited = False], as in both handlers below. *)
Definition limit_results {A} (limit : Z) (xs : list A) : limited_result A :=
  let '(ys, lim) :=
    if negb (Z.eqb limit 0) && (limit <? Z.of_nat (length xs))
    then (slice_to xs limit, true) else (xs, false) in
  mk_limited ys lim (length ys).

(** [_handle_list_documents] (lines 96-116); [list_wikipedia_documents]
    catches its own exceptions, so the [except] branch is not reached. *)
Definition _handle_list_documents (coll : option collection) (limit : Z)
    : limited_result listing :=
  limit_results limit (list_wikipedia_documents coll true).

(** [_handle_search_content] (lines 134-161); ['search_scope'] is
    copied into the metadata unchanged. *)
Definition _handle_search_content (coll : option collection)
    (query_arg search_scope : string) (limit : Z) : limited_result search_result :=
  limit_results limit (search_content coll query_arg search_scope).

(** A [section_data] dict of [_extract_sections_from_document]. *)
Record extracted_section := mk_extracted {
  xkey : string;
  xtitle : string;
  xlevel : Z;
  xcontent : string;
  xword_count : nat;
  xcharacter_count : nat;
  xparent_section : option string;
  xsubsections : list string
}.

Definition extracted_of (ks : string * section) : extracted_section :=
  let s := snd ks in
  mk_extracted (fst ks) (title s) (level s) (content s) (word_count s)
    (character_count s) (parent_section s) (default [] (subsections s)).

(** [filter_lower in section.get('title', '').lower()]: a substring test. *)
Definition title_has (filter_lower : string) (s : section) : bool :=
  0 <=? Py.find filter_lower (Py.lower (title s)).

(** [_extract_sections_from_document] (lines 273-325): the
    ['document_info'] triple (title, url, summary) and the sections. The
    loops over [all_sections.items()] follow [map_to_list] (the dict's
    insertion order is not kept by a [gmap]). *)
Definition _extract_sections_from_document (d : document)
    (section_filter : option string) (limit : Z)
    : (string * string * option string) * list extracted_section :=
  let all_sections := map_to_list (sections d) in
  let sections_list :=
    if truthy_opt section_filter then
      map extracted_of
        (List.filter (fun ks => title_has (Py.lower (default "" section_filter)) (snd ks))
           all_sections)
    else map extracted_of all_sections in
  let sections_list :=
    if negb (Z.eqb limit 0) && (limit <? Z.of_nat (length sections_list))
    then slice_to sections_list limit else sections_list in
  ((default "Unknown" (query d), default "" (url d),
    if truthy_opt section_filter then None else Some (summary d)),
   sections_list).

(** What [get_full_text(query, 'wiki')] reads from an existing page:
    [page.title], [page.fullurl], [page.summary], [page.text],
    [page.sections]. *)
Record wiki_page := mk_wiki_page {
  ptitle : string;
  purl : string;
  psummary : string;
  pfull_text : string;
  psections : list wsection
}.

(** [os.path.join('temp', filename)] for the generated [filename] of
    [save_full_text_to_markdown] with [extract_format='wiki'] and
    [preserve_hierarchy=True]; [file_stamp] is
    [datetime.now().strftime('%Y%m%d_%H%M%S')]. *)
Definition markdown_path (query file_stamp : string) : string :=
  ("temp/wikipedia_fulltext_" ++ _sanitize_filename query ++ "_wiki_structured_"
   ++ file_stamp ++ ".md")%string.

(** [save_full_text_to_markdown(query, extract_format='wiki',
    directory='temp')] (lines 145-246): [page] is what [get_full_text]
    finds ([None]: [return None]) and [timestamp] its
    ['%Y-%m-%d %H:%M:%S'] stamp; the result is the returned path with the
    text written to it (creating the directory and writing are not
    modelled as failing). *)
Definition save_full_text_to_markdown (query : string) (page : option wiki_page)
    (timestamp file_stamp : string) : option (string * string) :=
  match page with
  | None => None
  | Some p =>
      Some (markdown_path query file_stamp,
            markdown_file (ptitle p) query (purl p) "wiki" timestamp true
              (psummary p) (pfull_text p) (psections p))
  end.

(** [_fetch_from_wikipedia_and_store] (agent.py lines 213-271): [found]
    is whether [searcher.search(query)] finds the page, [read_ok] whether
    reading the file back succeeds (it then gives what was written).
    [interactive=False], so the prompt is never called; [doc_id] is not
    given to [get_wikipedia_document], so [ObjectId] is never called. The
    result is the returned document and the collection afterwards. *)
Definition _fetch_from_wikipedia_and_store (doc_fits : option Z -> stored -> bool)
    (coll : option store) (query : string)
    (found : bool) (page : option wiki_page) (timestamp file_stamp : string)
    (read_ok : bool) (now : Z) : option (Z * stored) * option store :=
  if negb found then (None, coll) else
  match save_full_text_to_markdown query page timestamp file_stamp with
  | None => (None, coll)
  | Some (md_file_path, content) =>
      if negb read_ok then (None, coll) else
      let '(storage_result, coll') :=
        store_wikipedia_document doc_fits coll content (Some md_file_path) false
          (fun _ _ => Skip) now in
      match storage_result with
      | Some _ =>
          (get_wikipedia_document (fun _ => None) (option_map docs coll')
             (Some query) None, coll')
      | None => (None, coll')
      end
  end.

(** The ['data'] that [_handle_fetch_operations] sets: the document with
    [len(document.get('sections', {}))] for ['fetch_document'], the
    extracted sections for ['fetch_sections'], nothing otherwise. *)
Inductive fetch_data :=
| DocumentData (e : Z * stored) (sections_count : nat)
| SectionsData (x : (string * string * option string) * list extracted_section)
| NoData.

(** The outcome: ['status'] ['error'] with
    ['Could not retrieve information for: ...'], or success with
    ['metadata']['cached'], the document and the data. *)
Inductive fetch_outcome :=
| FetchError
| Fetched (cached : bool) (document : Z * stored) (data : fetch_data).

(** [_handle_fetch_operations] (agent.py lines 164-210), with the
    inputs of [_fetch_from_wikipedia_and_store] for a database miss. *)
Definition _handle_fetch_operations (doc_fits : option Z -> stored -> bool)
    (coll : option store) (query operation : string)
    (section_filter : option string) (limit : Z) (found : bool)
    (page : option wiki_page) (timestamp file_stamp : string) (read_ok : bool)
    (now : Z) : fetch_outcome * option store :=
  let '(document, cached, coll') :=
    match get_wikipedia_document (fun _ => None) (option_map docs coll) (Some query) None with
    | Some e => (Some e, true, coll)
    | None =>
        let '(r, c') :=
          _fetch_from_wikipedia_and_store doc_fits coll query found page timestamp
            file_stamp read_ok now in
        (r, false, c')
    end in
  match document with
  | None => (FetchError, coll')
  | Some e =>
      (Fetched cached e
         (if String.eqb operation "fetch_document"
          then DocumentData e (size (sections (sbody (snd e))))
          else if String.eqb operation "fetch_sections"
          then SectionsData
                 (_extract_sections_from_document (sbody (snd e)) section_filter limit)
          else NoData), coll')
  end.

(** * Properties *)

(** ** Evaluation of the exception monad and of the loop *)

Lemma rbind_Ok {A B} (m : result A) (f : A -> result B) (b : B) :
  rbind m f = Ok b -> exists a, m = Ok a /\ f a = Ok b.
Proof. destruct m as [a|e]; simpl; [eauto | discriminate]. Qed.

Lemma py_index_in {A} (l : list A) (i : nat) :
  (i < length l)%nat -> exists x, py_index l i = Ok x /\ nth_error l i = Some x.
Proof.
  intros Hi. unfold py_index. destruct (nth_error l i) eqn:E; [eauto|].
  apply nth_error_None in E. lia.
Qed.

Lemma py_index_Ok {A} (l : list A) (i : nat) (x : A) :
  py_index l i = Ok x -> In x l.
Proof.
  unfold py_index. destruct (nth_error l i) eqn:E; intros H; [|discriminate].
  injection H as <-. eapply nth_error_In; eauto.
Qed.

Lemma collect_nonempty_total (lines : list string) (js : list nat) acc :
  Forall (fun j => (j < length lines)%nat) js ->
  exists r, collect_nonempty lines js acc = Ok r.
Proof.
  revert acc. induction js as [|j js IH]; intros acc Hjs; simpl; [eauto|].
  inversion Hjs as [|? ? Hj Hjs']; subst.
  destruct (py_index_in lines j Hj) as [lj [-> _]]. simpl. apply IH, Hjs'.
Qed.

Lemma next_few_lines_total (lines : list string) (i : nat) :
  exists r, next_few_lines lines i = Ok r.
Proof.
  unfold next_few_lines. apply collect_nonempty_total.
  apply Forall_forall. intros j Hj. rewrite elem_of_seq in Hj. lia.
Qed.

Lemma title_candidate_total (lines : list string) (i : nat) (line : string) :
  exists b, title_candidate lines i line = Ok b.
Proof.
  unfold title_candidate.
  destruct (String.length line <? 80)%nat; [|eauto].
  destruct (i + 1 <? length lines)%nat eqn:E; [|eauto].
  apply Nat.ltb_lt in E. destruct (py_index_in lines (i + 1) E) as [x [-> _]].
  simpl. eauto.
Qed.

Lemma classify_total (sep : bool) (lines : list string) (i : nat) (line : string) :
  exists k, classify sep lines i line = Ok k.
Proof.
  unfold classify.
  repeat match goal with |- context [if ?b then _ else _] =>
    lazymatch b with
    | context [header_match] => fail
    | _ => destruct b; [eauto|]
    end
  end.
  destruct (header_match line) as [[h t]|]; [eauto|].
  destruct (title_candidate_total lines i line) as [cand ->]. simpl.
  destruct cand; [|eauto].
  destruct (next_few_lines_total lines i) as [nxt ->]. simpl.
  destruct (_ && _); eauto.
Qed.

Lemma parse_lines_total (fuel : nat) (lines : list string) (i : nat) (st : pstate) :
  exists st', parse_lines fuel lines i st = Ok st'.
Proof.
  revert i st. induction fuel as [|fuel IH]; intros i st; simpl; [eauto|].
  destruct (i <? length lines)%nat eqn:E; [|eauto].
  apply Nat.ltb_lt in E. destruct (py_index_in lines i E) as [raw [-> _]]. simpl.
  destruct (classify_total (separator_found st) lines i (Py.strip raw)) as [k ->].
  simpl. apply IH.
Qed.

(** The loop as an induction principle: a property of the (index, state)
    pair that every iteration preserves holds when the loop ends. *)
Lemma parse_lines_invariant (P : nat -> pstate -> Prop) (lines : list string) :
  (forall i raw st k,
     (i < length lines)%nat -> nth_error lines i = Some raw ->
     classify (separator_found st) lines i (Py.strip raw) = Ok k ->
     P i st -> P (S i) (apply_kind k (Py.strip raw) st)) ->
  forall fuel i st st',
    fuel = (length lines - i)%nat -> (i <= length lines)%nat ->
    P i st -> parse_lines fuel lines i st = Ok st' -> P (length lines) st'.
Proof.
  intros Hstep fuel. induction fuel as [|fuel IH]; intros i st st' Hf Hi HP Hrun.
  - simpl in Hrun. injection Hrun as <-.
    replace (length lines) with i by lia. exact HP.
  - simpl in Hrun.
    destruct (i <? length lines)%nat eqn:E; [|apply Nat.ltb_ge in E; lia].
    apply Nat.ltb_lt in E.
    destruct (py_index_in lines i E) as [raw [Hidx Hnth]]. rewrite Hidx in Hrun.
    simpl in Hrun. apply rbind_Ok in Hrun as [k [Hk Hrun]].
    eapply (IH (S i)); [lia | lia | | exact Hrun].
    eapply Hstep; eauto.
Qed.

(** Running the parser: the loop state and the final save. *)
Lemma parse_markdown_content_run (text : string) (d : document) :
  parse_markdown_content text = Ok d ->
  exists st,
    parse_lines (length (Py.split_on Py.newline text))
      (Py.split_on Py.newline text) 0 init_pstate = Ok st /\
    d = match save_previous (doc st) (current_section st)
                (current_content st) 2 with
        | Some d' => d' | None => doc st end.
Proof.
  unfold parse_markdown_content. intros H. apply rbind_Ok in H as [st [Hst H]].
  injection H as <-. eauto.
Qed.

(** ** Markdown headers are never reached

    The loop skips every line starting with ['#'] (line 83) before the
    header regex (line 125) is tried, and that regex needs two leading
    ['#']: the [HeaderLine] branch is dead. *)

Lemma header_match_starts_with_hash (line : string) (p : nat * string) :
  header_match line = Some p -> Py.startswith "#" line = true.
Proof.
  intros H. destruct line as [|c r]; [discriminate H|].
  unfold header_match in H. cbn [count_lead] in H.
  destruct (Ascii.eqb "#" c) eqn:Ec; [|discriminate H].
  apply Ascii.eqb_eq in Ec. subst c. destruct r; reflexivity.
Qed.

Lemma classify_no_header (sep : bool) (lines : list string) (i : nat)
    (line : string) (h : nat) (t : string) :
  classify sep lines i line <> Ok (HeaderLine h t).
Proof.
  unfold classify. intros H.
  destruct (Py.startswith "#" line) eqn:Hs; [discriminate|].
  destruct (String.eqb line "---"); [discriminate|].
  destruct (_ && _ && _); [discriminate|].
  destruct (_ || _); [discriminate|].
  destruct (header_match line) as [p|] eqn:Hm.
  - apply header_match_starts_with_hash in Hm. congruence.
  - apply rbind_Ok in H as [cand [_ H]]. destruct cand; [|discriminate].
    apply rbind_Ok in H as [nxt [_ H]]. destruct (_ && _); discriminate.
Qed.

(** ** Well-formed section tables *)

(** Every stored section is at level 2 with consistent counts, and is
    the data of the last hierarchy entry with its key; every hierarchy
    entry is at level 2; the keys of [sections] are those of
    [section_hierarchy]. *)
Definition sections_wf (d : document) : Prop :=
  (forall k s, sections d !! k = Some s ->
     level s = 2 /\ word_count s = length (Py.words (content s)) /\
     character_count s = String.length (content s) /\
     exists pre post, section_hierarchy d = pre ++ [mk_hentry k (title s) (level s)] ++ post
                      /\ k ∉ map hkey post) /\
  Forall (fun e => hlevel e = 2) (section_hierarchy d) /\
  dom (sections d) = (list_to_set (map hkey (section_hierarchy d)) : gset string).

Lemma add_section_level_2 (d : document) (t : string) (buf : list string) :
  _add_section_to_document d t buf 2 =
  let key := _normalize_section_key t in
  let c := Py.strip (Py.join nl buf) in
  set_sections d
    (<[key := mk_section t c 2 (length (Py.words c)) (String.length c) None None]>
       (sections d))
    (section_hierarchy d ++ [mk_hentry key t 2]).
Proof. reflexivity. Qed.

Lemma add_section_wf (d : document) (t : string) (buf : list string) :
  sections_wf d -> sections_wf (_add_section_to_document d t buf 2).
Proof.
  rewrite add_section_level_2. cbv zeta.
  set (key := _normalize_section_key t). set (c := Py.strip (Py.join nl buf)).
  intros [Hsec [Hlev Hdom]]. unfold sections_wf, set_sections; simpl.
  split; [|split].
  - intros k s Hk. apply lookup_insert_Some in Hk as [[<- <-]|[Hne Hk]].
    + simpl. repeat split; [].
      exists (section_hierarchy d), []. simpl. split; [reflexivity|].
      intros Hin; inversion Hin.
    + destruct (Hsec k s Hk) as [H1 [H2 [H3 [pre [post [Hh Hnot]]]]]].
      repeat split; try assumption.
      exists pre, (post ++ [mk_hentry key t 2]). split.
      * rewrite Hh. rewrite <- !app_assoc. reflexivity.
      * rewrite map_app. simpl. rewrite elem_of_app, list_elem_of_singleton.
        intros [?|?]; [contradiction | congruence].
  - apply Forall_app. split; [exact Hlev|]. constructor; [reflexivity|constructor].
  - rewrite dom_insert_L, Hdom, map_app, list_to_set_app_L. simpl. set_solver.
Qed.

Lemma save_previous_wf (d d' : document) (cur : option string)
    (buf : list string) :
  save_previous d cur buf 2 = Some d' -> sections_wf d -> sections_wf d'.
Proof.
  unfold save_previous. destruct cur as [t|]; [|discriminate].
  destruct (String.eqb t "summary" && _).
  - intros H; injection H as <-. unfold sections_wf; simpl. exact (fun H => H).
  - destruct (_ && _); [|discriminate].
    intros H; injection H as <-. apply add_section_wf.
Qed.

Lemma apply_kind_wf (sep : bool) (lines : list string) (i : nat)
    (line : string) (k : line_kind) (st : pstate) :
  classify sep lines i line = Ok k ->
  sections_wf (doc st) -> sections_wf (doc (apply_kind k line st)).
Proof.
  intros Hk Hwf. destruct k as [| | | |h t| |]; simpl; try exact Hwf.
  - destruct (metadata_entry line) as [[key v]|]; [|exact Hwf].
    unfold sections_wf in *; simpl. exact Hwf.
  - exfalso. eapply classify_no_header; eauto.
  - destruct (save_previous _ _ _ 2) eqn:E; simpl; [|exact Hwf].
    eapply save_previous_wf; eauto.
  - destruct (Py.truthy line); exact Hwf.
Qed.

Lemma empty_document_wf : sections_wf empty_document.
Proof.
  unfold sections_wf; simpl. split; [|split].
  - intros k s Hk. rewrite lookup_empty in Hk. discriminate.
  - constructor.
  - rewrite dom_empty_L. reflexivity.
Qed.

Lemma parse_wf (text : string) (d : document) :
  parse_markdown_content text = Ok d -> sections_wf d.
Proof.
  intros H. apply parse_markdown_content_run in H as [st [Hrun ->]].
  assert (Hst : sections_wf (doc st)).
  { refine (parse_lines_invariant (fun _ st => sections_wf (doc st)) _ _
              _ 0 init_pstate st _ _ empty_document_wf Hrun).
    - intros i raw st0 k _ _ Hk Hwf. eapply apply_kind_wf; eauto.
    - lia.
    - lia. }
  destruct (save_previous _ _ _ 2) eqn:E; [|exact Hst].
  eapply save_previous_wf; eauto.
Qed.

Lemma parse_ok (text : string) : exists d, parse_markdown_content text = Ok d.
Proof.
  unfold parse_markdown_content.
  destruct (parse_lines_total (length (Py.split_on Py.newline text))
              (Py.split_on Py.newline text) 0 init_pstate) as [st ->].
  simpl. eauto.
Qed.


Lemma max_level_all_2 (h : list hentry) :
  h <> [] -> Forall (fun e => hlevel e = 2) h -> max_level h = 2.
Proof.
  destruct h as [|e r]; [congruence|]. intros _ Hall.
  inversion Hall as [|? ? He Hr]; subst. simpl. rewrite He.
  clear Hall He. induction r as [|e' r IH]; simpl; [reflexivity|].
  inversion Hr as [|? ? He' Hr']; subst. rewrite He'. simpl. apply IH, Hr'.
Qed.

(** ** Examples used below *)

(** Summary ["a b c"], then one plain-text heading ["H"] with body
    ["d e"]; the trailing ["#."] line (skipped as a title line) is what
    makes ["H"] look like a heading. *)
Definition stats_example_text : string :=
  String.concat nl ["---"; "a b c"; "H"; "d e"; ""; "#."].

Definition stats_example_section : section :=
  mk_section "H" "d e" 2 2 3 None None.

Definition stats_example_doc : document :=
  mk_document ∅ None None None None "a b c"
    {[ "h" := stats_example_section ]} [mk_hentry "h" "H" 2].

Lemma stats_example_parse :
  parse_markdown_content stats_example_text = Ok stats_example_doc.
Proof. vm_compute. reflexivity. Qed.

(** ** C1 *)

(** C1: for every input text, the parsed document's [sections] hold only
    sections of level at least 2, and so does [section_hierarchy]
    (markdown headers, the only source of other levels, are never
    reached). *)
Theorem parse_section_levels_ge_2 (text : string) :
  exists d, parse_markdown_content text = Ok d /\
    (forall k s, sections d !! k = Some s -> 2 <= level s) /\
    Forall (fun e => 2 <= hlevel e) (section_hierarchy d).
Proof.
  destruct (parse_ok text) as [d Hd]. exists d. split; [exact Hd|].
  destruct (parse_wf text d Hd) as [Hsec [Hlev _]]. split.
  - intros k s Hk. destruct (Hsec k s Hk) as [-> _]. lia.
  - eapply Forall_impl; [exact Hlev|]. intros e ->. lia.
Qed.

(** ** C2 *)

(** C2 (as stated, refuted): the leading and trailing blanks of
    ["  Multiple   Spaces "] become underscores, and an underscore (not
    alphanumeric) is kept, not stripped. *)
Lemma normalize_counterexample :
  _normalize_section_key "  Multiple   Spaces " <> "multiple_spaces" /\
  _normalize_section_key "  Multiple   Spaces " = "_multiple_spaces_" /\
  _normalize_section_key "snake_case" = "snake_case".
Proof. vm_compute. split; [discriminate | split; reflexivity]. Qed.

Fixpoint all_chars (p : ascii -> bool) (s : string) : bool :=
  match s with
  | EmptyString => true
  | String c r => p c && all_chars p r
  end.

Lemma underscore_runs_word (b : bool) (s : string) :
  all_chars (fun c => Py.is_word c || Py.is_space c) s = true ->
  all_chars Py.is_word (underscore_runs b s) = true.
Proof.
  revert b. induction s as [|c r IH]; intros b H; simpl in *; [reflexivity|].
  apply andb_prop in H as [Hc Hr].
  destruct (Py.is_space c) eqn:Hs.
  - destruct b; simpl; [apply IH, Hr|]. rewrite IH by exact Hr. reflexivity.
  - simpl. rewrite orb_false_r in Hc. rewrite Hc. simpl. apply IH, Hr.
Qed.

Lemma remove_special_word_or_space (s : string) :
  all_chars (fun c => Py.is_word c || Py.is_space c) (remove_special s) = true.
Proof.
  induction s as [|c r IH]; simpl; [reflexivity|].
  destruct (Py.is_word c || Py.is_space c) eqn:E; simpl; [rewrite E|]; assumption.
Qed.

(** C2 (amended): the key is the lower-cased title with every character
    that is neither a word character (letter, digit, underscore) nor
    whitespace removed and every maximal whitespace run, leading and
    trailing runs included, replaced by one underscore: only word
    characters remain, a title starting with whitespace gives a key
    starting with an underscore, and the two examples evaluate to
    ["early_history"] and ["_multiple_spaces_"]. *)
Theorem normalize_section_key_spec :
  _normalize_section_key "Early History!" = "early_history" /\
  _normalize_section_key "  Multiple   Spaces " = "_multiple_spaces_" /\
  (forall title, all_chars Py.is_word (_normalize_section_key title) = true) /\
  (forall c r, Py.is_space c = true ->
     exists r', _normalize_section_key (String c r) = String "_" r').
Proof.
  split; [vm_compute; reflexivity|]. split; [vm_compute; reflexivity|]. split.
  - intros title. unfold _normalize_section_key.
    apply underscore_runs_word, remove_special_word_or_space.
  - intros c r Hc. unfold _normalize_section_key. simpl.
    assert (Hl : Py.is_space (Py.lower_char c) = true).
    { revert Hc. destruct c as [b0 b1 b2 b3 b4 b5 b6 b7].
      destruct b0, b1, b2, b3, b4, b5, b6, b7; vm_compute; congruence. }
    rewrite Hl, orb_true_r. simpl. rewrite Hl. eauto.
Qed.

(** ** C5 *)

(** C5 (as stated, refuted): the document parsed from
    [stats_example_text] has summary ["a b c"] and exactly one section,
    with content ["d e"], but [total_words] is 2, not 5: the summary's
    words are not counted. *)
Lemma statistics_counterexample :
  exists d, parse_markdown_content stats_example_text = Ok d /\
    summary d = "a b c" /\
    sections d = {[ "h" := stats_example_section ]} /\
    content stats_example_section = "d e" /\
    total_words (document_statistics d) <> 5%nat.
Proof.
  exists stats_example_doc. split; [exact stats_example_parse|].
  split; [reflexivity|]. split; [reflexivity|]. split; [reflexivity|].
  vm_compute. discriminate.
Qed.

(** C5 (amended): for any text whose parse has summary ["a b c"] and
    exactly one section, with content ["d e"], the statistics are
    [total_sections = 1], [total_words = 2] (section words only),
    [total_characters = len("a b c") + len("d e") = 8] and
    [hierarchy_depth = 2], the level of that section. *)
Theorem statistics_one_section (text : string) (d : document) (k : string)
    (s : section) :
  parse_markdown_content text = Ok d ->
  summary d = "a b c" ->
  sections d = {[ k := s ]} ->
  content s = "d e" ->
  document_statistics d = mk_statistics 1 2 8 2.
Proof.
  intros Hd Hsum Hsecs Hc.
  destruct (parse_wf text d Hd) as [Hsec [Hlev Hdom]].
  assert (Hk : sections d !! k = Some s) by (rewrite Hsecs; apply lookup_singleton_eq).
  destruct (Hsec k s Hk) as [Hl [Hw [Hch _]]].
  rewrite Hc in Hw, Hch.
  assert (Hne : section_hierarchy d <> []).
  { intros Hnil. rewrite Hnil, Hsecs, dom_singleton_L in Hdom. simpl in Hdom.
    set_solver. }
  unfold document_statistics. rewrite Hsecs, Hsum, map_size_singleton,
    !map_fold_singleton, (max_level_all_2 _ Hne Hlev), Hw, Hch.
  reflexivity.
Qed.

Lemma statistics_one_section_witness :
  parse_markdown_content stats_example_text = Ok stats_example_doc /\
  document_statistics stats_example_doc = mk_statistics 1 2 8 2.
Proof.
  split; [vm_compute; reflexivity|].
  apply (statistics_one_section stats_example_text stats_example_doc "h"
           stats_example_section); vm_compute; reflexivity.
Defined.

(** ** C9 *)

(** C9: [parse_markdown_content] never raises: every list index it reads
    ([lines[i]] under the loop condition, [lines[i + 1]] behind
    [i + 1 < len(lines)], and the lookahead [lines[j]] for [j] in
    [range(i + 1, min(i + 4, len(lines)))]) is in range, for every input. *)
Theorem parse_markdown_content_total (text : string) :
  exists d, parse_markdown_content text = Ok d.
Proof.
  unfold parse_markdown_content.
  destruct (parse_lines_total (length (Py.split_on Py.newline text))
              (Py.split_on Py.newline text) 0 init_pstate) as [st ->].
  simpl. eauto.
Qed.

(** ** C10 *)

(** A [**Key:** Value] line as the metadata branch (lines 94-113) reads
    it: the branch's guard, then [metadata_entry]. *)
Definition metadata_line_entry (line : string) : option (string * string) :=
  if Py.startswith "**" line && Py.contains_char ":" line
  then metadata_entry line else None.

Definition add_metadata_line (m : gmap string string) (raw : string)
    : gmap string string :=
  match metadata_line_entry (Py.strip raw) with
  | Some (k, v) => <[k := v]> m
  | None => m
  end.

Definition metadata_of_lines (lines : list string) : gmap string string :=
  fold_left add_metadata_line lines ∅.

Definition promoted (d : document) : Prop :=
  query d = metadata d !! "query" /\ url d = metadata d !! "url" /\
  format d = metadata d !! "extract_format" /\
  extracted_at d = metadata d !! "extracted_on".

Lemma hash_not_stars (line : string) :
  Py.startswith "#" line = true -> Py.startswith "**" line = false.
Proof.
  destruct line as [|c r]; [discriminate|]. intros H.
  destruct (ascii_dec c "#") as [->|Hne]; [reflexivity|].
  unfold Py.startswith in H. cbn [String.prefix] in H.
  destruct (ascii_dec "#" c); [congruence | discriminate].
Qed.

Lemma promoted_add_metadata (d : document) (k v : string) :
  promoted d -> promoted (add_metadata d (k, v)).
Proof.
  unfold promoted, add_metadata; simpl. intros [Hq [Hu [Hf He]]].
  repeat split;
    match goal with |- context [String.eqb k ?s] =>
      destruct (String.eqb_spec k s) as [->|Hne];
      [rewrite lookup_insert_eq; reflexivity
      |rewrite lookup_insert_ne by congruence; assumption]
    end.
Qed.

Lemma firstn_snoc_nth {A} (l : list A) (i : nat) (x : A) :
  nth_error l i = Some x -> firstn (S i) l = firstn i l ++ [x].
Proof.
  revert i. induction l as [|a l IH]; intros [|i] H; simpl in *;
    try discriminate.
  - injection H as ->. reflexivity.
  - f_equal. apply IH, H.
Qed.

Definition no_separator_state (lines : list string) (i : nat) (st : pstate) : Prop :=
  current_section st = None /\ current_content st = [] /\
  separator_found st = false /\ summary (doc st) = "" /\
  sections (doc st) = ∅ /\ section_hierarchy (doc st) = [] /\
  metadata (doc st) = metadata_of_lines (firstn i lines) /\ promoted (doc st).

Lemma no_separator_step (lines : list string) (i : nat) (raw : string)
    (st : pstate) (k : line_kind) :
  (i < length lines)%nat -> nth_error lines i = Some raw ->
  Py.strip raw <> "---" ->
  classify (separator_found st) lines i (Py.strip raw) = Ok k ->
  no_separator_state lines i st ->
  no_separator_state lines (S i) (apply_kind k (Py.strip raw) st).
Proof.
  intros Hi Hnth Hsep Hk (Hcur & Hbuf & Hsf & Hsum & Hsecs & Hh & Hmeta & Hprom).
  assert (Hfirst : firstn (S i) lines = firstn i lines ++ [raw]).
  { apply firstn_snoc_nth, Hnth. }
  unfold no_separator_state. rewrite Hfirst. unfold metadata_of_lines.
  rewrite fold_left_app. simpl. fold (metadata_of_lines (firstn i lines)).
  unfold add_metadata_line, metadata_line_entry.
  set (line := Py.strip raw) in *.
  rewrite Hsf in Hk. unfold classify in Hk.
  destruct (Py.startswith "#" line) eqn:Hhash.
  - injection Hk as <-. simpl. rewrite (hash_not_stars line Hhash). simpl.
    repeat (split; [assumption|]); assumption.
  - destruct (String.eqb_spec line "---") as [Heq|_]; [contradiction|].
    cbn [negb andb orb] in Hk.
    destruct (Py.startswith "**" line && Py.contains_char ":" line) eqn:Hmc.
    + injection Hk as <-. simpl.
      destruct (metadata_entry line) as [[key v]|] eqn:Hme; simpl.
      * do 6 (split; [assumption|]).
        split; [simpl; rewrite Hmeta; reflexivity|].
        apply promoted_add_metadata, Hprom.
      * repeat (split; [assumption|]); assumption.
    + simpl in Hk. injection Hk as <-. simpl.
      repeat (split; [assumption|]); assumption.
Qed.

(** C10: when no line of the text strips to ['---'], the parse has an
    empty summary, no sections and an empty hierarchy (the whole body
    is skipped), while [metadata] holds every [**Key:** Value] line of
    the text (the later of two lines with the same key wins), and the
    well-known keys are promoted: [query], [url], [format] and
    [extracted_at] are the [metadata] values of ['query'], ['url'],
    ['extract_format'] and ['extracted_on']. *)
Theorem parse_without_separator (text : string) :
  (forall raw, In raw (Py.split_on Py.newline text) -> Py.strip raw <> "---") ->
  exists d, parse_markdown_content text = Ok d /\
    summary d = "" /\ sections d = ∅ /\ section_hierarchy d = [] /\
    metadata d = metadata_of_lines (Py.split_on Py.newline text) /\
    promoted d.
Proof.
  intros Hnosep. destruct (parse_ok text) as [d Hd]. exists d. split; [exact Hd|].
  apply parse_markdown_content_run in Hd as [st [Hrun ->]].
  set (lines := Py.split_on Py.newline text) in *.
  assert (Hst : no_separator_state lines (length lines) st).
  { refine (parse_lines_invariant (no_separator_state lines) lines _
              _ 0 init_pstate st _ _ _ Hrun).
    - intros i raw st0 k Hi Hnth Hk Hinv.
      apply (no_separator_step lines i raw st0 k Hi Hnth); try assumption.
      apply Hnosep. eapply nth_error_In; eauto.
    - lia.
    - lia.
    - unfold no_separator_state, promoted; simpl.
      repeat split; rewrite ?lookup_empty; reflexivity. }
  destruct Hst as (Hcur & Hbuf & Hsf & Hsum & Hsecs & Hh & Hmeta & Hprom).
  rewrite firstn_all in Hmeta.
  unfold save_previous. rewrite Hcur. repeat (split; [assumption|]); assumption.
Qed.

Definition no_separator_example : string :=
  String.concat nl ["# Malaria"; "**Query:** Malaria"; "**URL:** https://x";
                    "Malaria is a disease."].

Lemma parse_without_separator_witness :
  exists d, parse_markdown_content no_separator_example = Ok d /\
    summary d = "" /\ sections d = ∅ /\ section_hierarchy d = [] /\
    metadata d = metadata_of_lines (Py.split_on Py.newline no_separator_example) /\
    promoted d.
Proof.
  apply parse_without_separator.
  intros raw Hin. vm_compute in Hin.
  repeat destruct Hin as [<-|Hin]; try (vm_compute; discriminate).
  contradiction.
Defined.

(** ** C6 *)

(** The lines of a text as the loop classifies them, with the separator
    flag threaded as [apply_kind] threads it. *)
Definition sep_after (k : line_kind) (sep : bool) : bool :=
  match k with SeparatorLine => true | _ => sep end.












Lemma separator_found_apply (k : line_kind) (line : string) (st : pstate) :
  separator_found (apply_kind k line st) = sep_after k (separator_found st).
Proof.
  destruct k; simpl; try reflexivity.
  - destruct (metadata_entry line) as [[? ?]|]; reflexivity.
  - destruct (save_previous _ _ _ 2); reflexivity.
  - destruct (Py.truthy line); reflexivity.
Qed.





















(** ** C4 *)







(** ** C3 *)

(** A sequence of [_add_section_to_document] calls on one document. *)
Fixpoint add_sections (d : document) (secs : list (string * list string * Z))
    : document :=
  match secs with
  | [] => d
  | (t, buf, lvl) :: r => add_sections (_add_section_to_document d t buf lvl) r
  end.

(** Headings at levels [2, 3, 3, 4, 2]. *)
Definition nested_example : list (string * list string * Z) :=
  [("A", ["a."], 2); ("B", ["b."], 3); ("C", ["c."], 3);
   ("D", ["d."], 4); ("E", ["e."], 2)].

Lemma nested_example_parents :
  let d := add_sections empty_document nested_example in
  option_map parent_section (sections d !! "d") = Some (Some "c") /\
  option_map parent_section (sections d !! "e") = Some None /\
  option_map parent_section (sections d !! "b") = Some (Some "a") /\
  option_map subsections (sections d !! "c") = Some (Some ["d"]).
Proof. vm_compute. repeat split. Qed.

(** Where the nearest preceding entry of smaller level has a non-empty
    key, that key is the parent. *)
Lemma add_section_parent (d : document) (t : string) (buf : list string)
    (lvl : Z) (pk : string) :
  2 < lvl -> _find_parent_section (section_hierarchy d) lvl = Some pk ->
  Py.truthy pk = true ->
  option_map parent_section
    (sections (_add_section_to_document d t buf lvl) !! _normalize_section_key t)
  = Some (Some pk).
Proof.
  intros Hlvl Hp Ht. unfold _add_section_to_document.
  replace (2 <? lvl) with true by (symmetry; apply Z.ltb_lt; exact Hlvl).
  rewrite Hp, Ht. simpl. rewrite lookup_insert_eq. reflexivity.
Qed.

(** The failing input: a level-2 heading whose key is empty (["???"]
    normalizes to [""]), then a level-3 heading. *)
Definition empty_key_example : list (string * list string * Z) :=
  [("???", ["x."], 2); ("Sub", ["y."], 3)].

(** C3 (code bug, evaluated): the nearest preceding entry with a smaller
    level is the level-2 entry with key [""], yet the level-3 section
    gets no [parent_section]: [if parent_key:] treats the empty key as
    "no parent". *)
Theorem parent_of_empty_key :
  let d := add_sections empty_document empty_key_example in
  section_hierarchy d = [mk_hentry "" "???" 2; mk_hentry "sub" "Sub" 3] /\
  _find_parent_section [mk_hentry "" "???" 2] 3 = Some "" /\
  option_map parent_section (sections d !! "sub") = Some None.
Proof. vm_compute. repeat split. Qed.

(** ** C7 *)

Lemma str_app_assoc (a b c : string) :
  ((a ++ b) ++ c)%string = (a ++ b ++ c)%string.
Proof.
  induction a as [|x a IH]; [reflexivity|].
  change (String x ((a ++ b) ++ c) = String x (a ++ b ++ c))%string.
  now rewrite IH.
Qed.

Lemma str_app_nil_r (a : string) : (a ++ "")%string = a.
Proof.
  induction a as [|x a IH]; [reflexivity|].
  change (String x (a ++ "") = String x a)%string. now rewrite IH.
Qed.

(** [ci_search] finds the first position where the term matches. *)
Lemma ci_search_first (p s : string) (n : nat) :
  ci_search p s = Some n ->
  ci_prefix p (sdrop n s) = true /\
  (forall q, (q < n)%nat -> ci_prefix p (sdrop q s) = false).
Proof.
  revert n. induction s as [|c r IH]; intros n H; cbn [ci_search] in H.
  - destruct (ci_prefix p "") eqn:E; [|discriminate].
    injection H as <-. split; [exact E | intros q Hq; lia].
  - destruct (ci_prefix p (String c r)) eqn:E.
    + injection H as <-. split; [exact E | intros q Hq; lia].
    + destruct (ci_search p r) as [m|] eqn:Em; [|discriminate].
      simpl in H. injection H as <-.
      destruct (IH m eq_refl) as [H1 H2]. split; [exact H1|].
      intros [|q] Hq; [exact E | cbn [sdrop]; apply H2; lia].
Qed.

(** A text of [n] letters ["x"]. *)
Fixpoint xs (n : nat) : string :=
  match n with O => EmptyString | S k => String "x" (xs k) end.

(** C7 (counterexample): the first match of ["mala"] is at position 100,
    within 150 characters of the start of the text, so an excerpt with
    150 characters of context would start at the text boundary without
    an ellipsis; the excerpt starts with ["..."] and keeps only 75
    characters before the match. *)
Theorem highlight_counterexample :
  ci_search "mala" (xs 100 ++ "mala") = Some 100%nat /\
  _highlight_text (xs 100 ++ "mala") "mala" 150
  = ("..." ++ xs 75 ++ "**mala**")%string.
Proof. split; vm_compute; reflexivity. Qed.

(** The example of the spec. *)
Lemma highlight_malaria :
  _highlight_text "... malaria is a disease ..." "mala" 150
  = "... **mala**ria is a disease ..."%string.
Proof. vm_compute. reflexivity. Qed.

(** C7 (amended): for a non-empty text and term whose first
    case-insensitive match starts at [p], the excerpt is the text from
    [max(0, p - 75)] to [min(len, p + len term + 75)] (75 characters of
    context each side), with ["..."] in front when [p > 75] and behind
    when the end falls before the end of the text, and every
    case-insensitive occurrence of the term in it wrapped in ["**"]. *)
Theorem highlight_text_excerpt (text term : string) (p : nat) :
  Py.truthy text = true -> Py.truthy term = true ->
  ci_search term text = Some p ->
  (ci_prefix term (sdrop p text) = true /\
   (forall q, (q < p)%nat -> ci_prefix term (sdrop q text) = false)) /\
  _highlight_text text term 150 =
  highlight_all term
    ((if (75 <? p)%nat then "..." else "") ++
     String.substring (p - 75)
       (Nat.min (String.length text) (p + String.length term + 75) - (p - 75))
       text ++
     (if (p + String.length term + 75 <? String.length text)%nat
      then "..." else ""))%string.
Proof.
  intros Ht Hm Hs. split; [apply ci_search_first; exact Hs|].
  unfold _highlight_text. rewrite Ht, Hm, Hs. cbn [negb orb].
  change (Nat.div 150 2) with 75%nat. unfold Py.slice.
  set (ex := String.substring _ _ text).
  destruct (Nat.ltb_spec 75 p), (Nat.ltb_spec 0 (p - 75)); try lia;
  destruct (Nat.ltb_spec (p + String.length term + 75) (String.length text)),
    (Nat.ltb_spec (Nat.min (String.length text) (p + String.length term + 75))
       (String.length text)); try lia;
  rewrite ?str_app_nil_r, ?str_app_assoc; reflexivity.
Qed.

Lemma highlight_text_excerpt_witness :
  _highlight_text "... malaria is a disease ..." "mala" 150
  = highlight_all "mala"
      ((if (75 <? 4)%nat then "..." else "") ++
       String.substring (4 - 75)
         (Nat.min 28 (4 + 4 + 75) - (4 - 75)) "... malaria is a disease ..." ++
       (if (4 + 4 + 75 <? 28)%nat then "..." else ""))%string.
Proof.
  apply (highlight_text_excerpt "... malaria is a disease ..." "mala" 4%nat);
    vm_compute; reflexivity.
Defined.

(** ** C8 *)

Lemma find_one_in (f : stored -> option string) (v : string) (c : collection)
    (e : Z * stored) :
  find_one f v c = Some e -> In e c.
Proof. unfold find_one. intros H. exact (proj1 (find_some _ _ H)). Qed.

Lemma ids_fresh_new (st : store) :
  ids_fresh st = true -> ~ In (next_id st) (map fst (docs st)).
Proof.
  unfold ids_fresh. intros Hf H. apply in_map_iff in H as [e [He Hin]].
  rewrite forallb_forall in Hf. specialize (Hf e Hin).
  apply Z.ltb_lt in Hf. lia.
Qed.

Lemma replace_first_ids (i : Z) (s : stored) (c : collection) :
  map fst (replace_first i s c) = map fst c.
Proof.
  induction c as [|e c IH]; [reflexivity|]. cbn [replace_first].
  destruct (Z.eqb_spec (fst e) i) as [He|He]; cbn [map].
  - rewrite He. reflexivity.
  - rewrite IH. reflexivity.
Qed.

Lemma replace_first_get (i : Z) (s : stored) (c : collection) (e : Z * stored) :
  In e c -> fst e = i -> get_doc i (replace_first i s c) = Some s.
Proof.
  unfold get_doc. induction c as [|e' c IH]; intros Hin Hi; [destruct Hin|].
  cbn [replace_first]. destruct (Z.eqb_spec (fst e') i) as [He|He].
  - cbn. rewrite Z.eqb_refl. reflexivity.
  - cbn [List.find fst]. destruct Hin as [<-|Hin]; [contradiction|].
    replace (fst e' =? i) with false by (symmetry; apply Z.eqb_neq; exact He).
    apply IH; assumption.
Qed.

Lemma duplicates_by_query (c : collection) (s : stored) (q : string)
    (e : Z * stored) :
  query_value s = Some q -> Py.truthy q = true ->
  find_one query_of q c = Some e ->
  _find_duplicate_documents c s = [e].
Proof.
  intros Hq Ht Hf. unfold _find_duplicate_documents.
  rewrite Hq, Ht, Hf. cbn [option_list Py.list_truthy negb].
  destruct (url_value s) as [u|]; [|reflexivity].
  rewrite andb_false_r. reflexivity.
Qed.

Lemma store_parsed (doc_fits : option Z -> stored -> bool) (st : store)
    (content : string) (source : option string)
    (d : document) (interactive : bool) prompt (now : Z) :
  parse_markdown_content content = Ok d ->
  store_wikipedia_document doc_fits (Some st) content source interactive prompt now
  = (fst (store_in doc_fits st (prepare d source) interactive prompt now),
     Some (snd (store_in doc_fits st (prepare d source) interactive prompt now))).
Proof.
  intros Hp. unfold store_wikipedia_document. rewrite Hp.
  destruct (store_in doc_fits st (prepare d source) interactive prompt now).
  reflexivity.
Qed.

(** The document of the text ["**Query:** q"], stored. *)
Definition q_doc : document :=
  match parse_markdown_content "**Query:** q" with
  | Ok d => d
  | Raise _ => empty_document
  end.

Definition q_stored : stored := prepare q_doc None.

Definition empty_q_stored : stored :=
  match parse_markdown_content "**Query:**" with
  | Ok d => prepare d None
  | Raise _ => prepare empty_document None
  end.

(** C8 (counterexample): with two stored documents of query ["q"],
    [overwrite] deletes only the first one found: the second stays next
    to the new one. And a document whose query is [""] is not checked
    for duplicates: [update] against a stored document with the same
    (empty) query inserts a new document under a fresh [_id]. *)
Theorem store_counterexample :
  query_of q_stored = Some "q"%string /\
  store_wikipedia_document (fun _ _ => true) (Some (mk_store [(1, q_stored); (2, q_stored)] 3))
    "**Query:** q" None true (fun _ _ => Overwrite) 0
  = (Some 3, Some (mk_store [(2, q_stored); (3, q_stored)] 4)) /\
  query_of empty_q_stored = Some ""%string /\
  store_wikipedia_document (fun _ _ => true) (Some (mk_store [(1, empty_q_stored)] 2))
    "**Query:**" None true (fun _ _ => Update) 0
  = (Some 2, Some (mk_store [(1, empty_q_stored); (2, empty_q_stored)] 3)).
Proof. vm_compute. repeat split. Qed.

(** C8 (amended): let the new document's query value (its ['query'], or
    else the metadata's) be a non-empty [q], and let [e0] be the first
    stored document with query [q] (the only duplicate looked for).
    Every write may be refused ([accepts] false: a NUL in a key, or a
    document the driver or server rejects), and the [except] then
    returns [None]. Under [update] and in non-interactive mode the call
    returns [e0]'s [_id] and replaces that document in place, keeping
    every [_id], with the new one carrying [updated_at = now]; refused,
    it returns [None] with the store unchanged. Under [overwrite] it
    deletes [e0] alone and inserts the new document under an [_id] not
    in use; refused, it returns [None] with [e0] already deleted. Under
    [skip] it returns [None] and leaves the store as it was. With no
    duplicate at all, a non-interactive call inserts the document under
    a fresh [_id], or returns [None] with the store unchanged. *)
Theorem store_duplicate_modes (doc_fits : option Z -> stored -> bool) (st : store)
    (content : string) (source : option string) (d : document) (q : string)
    (e0 : Z * stored) (now : Z) :
  ids_fresh st = true ->
  parse_markdown_content content = Ok d ->
  query_value (prepare d source) = Some q -> Py.truthy q = true ->
  find_one query_of q (docs st) = Some e0 ->
  (store_wikipedia_document doc_fits (Some st) content source true (fun _ _ => Update) now
   = (if accepts doc_fits (Some (fst e0)) (set_updated (prepare d source) now)
      then (Some (fst e0),
            Some (replace_one (fst e0) (set_updated (prepare d source) now) st))
      else (None, Some st)) /\
   map fst (docs (replace_one (fst e0) (set_updated (prepare d source) now) st))
   = map fst (docs st) /\
   get_doc (fst e0)
     (docs (replace_one (fst e0) (set_updated (prepare d source) now) st))
   = Some (set_updated (prepare d source) now) /\
   updated_at (set_updated (prepare d source) now) = Some now) /\
  (forall prompt,
     store_wikipedia_document doc_fits (Some st) content source false prompt now
     = (if accepts doc_fits None (set_updated (prepare d source) now)
        then (Some (fst e0),
              Some (replace_one (fst e0) (set_updated (prepare d source) now) st))
        else (None, Some st))) /\
  (store_wikipedia_document doc_fits (Some st) content source true
     (fun _ _ => Overwrite) now
   = (if accepts doc_fits (Some (next_id st)) (prepare d source)
      then (Some (next_id st),
            Some (mk_store (delete_first (fst e0) (docs st)
                            ++ [(next_id st, prepare d source)]) (next_id st + 1)))
      else (None, Some (mk_store (delete_first (fst e0) (docs st)) (next_id st)))) /\
   ~ In (next_id st) (map fst (docs st))) /\
  store_wikipedia_document doc_fits (Some st) content source true (fun _ _ => Skip) now
  = (None, Some st) /\
  (forall st' prompt,
     _find_duplicate_documents (docs st') (prepare d source) = [] ->
     store_wikipedia_document doc_fits (Some st') content source false prompt now
     = (if accepts doc_fits (Some (next_id st')) (prepare d source)
        then (Some (next_id st'),
              Some (mk_store (docs st' ++ [(next_id st', prepare d source)])
                      (next_id st' + 1)))
        else (None, Some st'))).
Proof.
  intros Hfresh Hp Hq Ht Hf.
  pose proof (duplicates_by_query (docs st) (prepare d source) q e0 Hq Ht Hf)
    as Hd.
  pose proof (find_one_in _ _ _ _ Hf) as Hin.
  repeat split.
  - rewrite (store_parsed _ _ _ _ d _ _ _ Hp). unfold store_in. rewrite Hd.
    destruct (accepts _ _ _); reflexivity.
  - apply replace_first_ids.
  - apply (replace_first_get _ _ _ e0 Hin eq_refl).
  - intros prompt. rewrite (store_parsed _ _ _ _ d _ _ _ Hp). unfold store_in.
    rewrite Hd. destruct (accepts _ _ _); reflexivity.
  - rewrite (store_parsed _ _ _ _ d _ _ _ Hp). unfold store_in. rewrite Hd.
    destruct (accepts _ _ _); reflexivity.
  - apply ids_fresh_new; exact Hfresh.
  - rewrite (store_parsed _ _ _ _ d _ _ _ Hp). unfold store_in. rewrite Hd.
    reflexivity.
  - intros st' prompt Hn. rewrite (store_parsed _ _ _ _ d _ _ _ Hp).
    unfold store_in. rewrite Hn. destruct (accepts _ _ _); reflexivity.
Qed.

(** A metadata line whose key holds a NUL. *)
Definition nul_key_text : string :=
  ("**Query:** q" ++ nl ++ "**x" ++ String nul ":** v")%string.

Lemma store_duplicate_modes_witness :
  ids_fresh (mk_store [(1, q_stored)] 2) = true /\
  parse_markdown_content "**Query:** q" = Ok q_doc /\
  store_wikipedia_document (fun _ _ => true) (Some (mk_store [(1, q_stored)] 2))
    "**Query:** q" None true (fun _ _ => Update) 5
  = (Some 1, Some (replace_one 1 (set_updated q_stored 5)
                     (mk_store [(1, q_stored)] 2))) /\
  exists d, parse_markdown_content nul_key_text = Ok d /\
  store_wikipedia_document (fun _ _ => true) (Some (mk_store [(1, q_stored)] 2))
    nul_key_text None true (fun _ _ => Update) 5
  = (None, Some (mk_store [(1, q_stored)] 2)).
Proof.
  split; [vm_compute; reflexivity|].
  split; [vm_compute; reflexivity|].
  split.
  - refine (proj1 (proj1 (store_duplicate_modes (fun _ _ => true) (mk_store [(1, q_stored)] 2)
              "**Query:** q" None q_doc "q" (1, q_stored) 5 _ _ _ _ _)));
      vm_compute; reflexivity.
  - eexists. split; vm_compute; reflexivity.
Defined.

(** * Further properties of the code *)

(** ** Invariants of the parsed document *)

(** A property of documents that the empty document has and that every
    update the loop makes keeps (a metadata entry, the summary, a
    level-2 section) holds for every parsed document. *)
Lemma parse_doc_invariant (Q : document -> Prop) :
  Q empty_document ->
  (forall d kv, Q d -> Q (add_metadata d kv)) ->
  (forall d s, Q d -> Q (set_summary d s)) ->
  (forall d t buf, Q d -> Q (_add_section_to_document d t buf 2)) ->
  forall text d, parse_markdown_content text = Ok d -> Q d.
Proof.
  intros H0 Hm Hs Ha text d H.
  assert (Hsave : forall d0 cur buf d1,
             save_previous d0 cur buf 2 = Some d1 -> Q d0 -> Q d1).
  { intros d0 cur buf d1. unfold save_previous.
    destruct cur as [t|]; [|discriminate].
    destruct (String.eqb t "summary" && _).
    - intros E; injection E as <-. apply Hs.
    - destruct (_ && _); [|discriminate]. intros E; injection E as <-. apply Ha. }
  apply parse_markdown_content_run in H as [st [Hrun ->]].
  assert (Hst : Q (doc st)).
  { refine (parse_lines_invariant (fun _ st => Q (doc st)) _ _
              _ 0 init_pstate st _ _ H0 Hrun); [|lia|lia].
    intros i raw st0 k _ _ Hk HQ.
    destruct k as [| | | |h t| |]; simpl; try exact HQ.
    - destruct (metadata_entry _) as [kv|]; [apply Hm|]; exact HQ.
    - exfalso. eapply classify_no_header; eauto.
    - destruct (save_previous _ _ _ 2) eqn:E; simpl; [|exact HQ].
      eapply Hsave; eauto.
    - destruct (Py.truthy _); exact HQ. }
  destruct (save_previous _ _ _ 2) eqn:E; [|exact Hst].
  eapply Hsave; eauto.
Qed.

(** Sections as the parser stores them: under the key of their title,
    with neither parent nor subsections; the hierarchy entries carry the
    key of their title. *)
Definition plain_sections (d : document) : Prop :=
  (forall k s, sections d !! k = Some s ->
     k = _normalize_section_key (title s) /\
     parent_section s = None /\ subsections s = None) /\
  Forall (fun e => hkey e = _normalize_section_key (htitle e))
    (section_hierarchy d).

Lemma parse_plain_sections (text : string) (d : document) :
  parse_markdown_content text = Ok d -> plain_sections d.
Proof.
  apply parse_doc_invariant.
  - split; [intros k s Hk; simpl in Hk; rewrite lookup_empty in Hk; discriminate|constructor].
  - intros d0 [k v] H. exact H.
  - intros d0 s H. exact H.
  - intros d0 t buf [Hs Hh]. rewrite add_section_level_2. cbv zeta.
    unfold plain_sections, set_sections; simpl. split.
    + intros k s Hk. apply lookup_insert_Some in Hk as [[<- <-]|[_ Hk]].
      * simpl. repeat split.
      * apply Hs, Hk.
    + apply Forall_app. split; [exact Hh|]. constructor; [reflexivity|constructor].
Qed.

(** X1: every section of a parsed document is stored under the
    normalized key of its own title and has no [parent_section] and no
    [subsections]; every hierarchy entry's key is the normalized title. *)
Theorem parse_sections_unlinked (text : string) (d : document) :
  parse_markdown_content text = Ok d ->
  (forall k s, sections d !! k = Some s ->
     k = _normalize_section_key (title s) /\
     parent_section s = None /\ subsections s = None) /\
  Forall (fun e => hkey e = _normalize_section_key (htitle e))
    (section_hierarchy d).
Proof. apply parse_plain_sections. Qed.

Lemma parse_sections_unlinked_witness :
  parse_markdown_content stats_example_text = Ok stats_example_doc /\
  Forall (fun e => hkey e = _normalize_section_key (htitle e))
    (section_hierarchy stats_example_doc).
Proof.
  split; [exact stats_example_parse|].
  exact (proj2 (parse_sections_unlinked _ _ stats_example_parse)).
Defined.

Lemma parse_promoted (text : string) (d : document) :
  parse_markdown_content text = Ok d -> promoted d.
Proof.
  apply parse_doc_invariant.
  - repeat split.
  - intros d0 [k v] H. apply promoted_add_metadata, H.
  - intros d0 s H. exact H.
  - intros d0 t buf H. rewrite add_section_level_2. exact H.
Qed.

(** X2: for every text, the document's ['query'], ['url'], ['format']
    and ['extracted_at'] are exactly the metadata values under
    ['query'], ['url'], ['extract_format'] and ['extracted_on'] (absent
    together); the last metadata line with a key wins. *)
Theorem parse_promoted_metadata (text : string) (d : document) :
  parse_markdown_content text = Ok d ->
  query d = metadata d !! "query" /\ url d = metadata d !! "url" /\
  format d = metadata d !! "extract_format" /\
  extracted_at d = metadata d !! "extracted_on".
Proof. apply parse_promoted. Qed.

Lemma parse_promoted_metadata_witness :
  parse_markdown_content "**Query:** q" = Ok q_doc /\
  query q_doc = metadata q_doc !! "query".
Proof.
  assert (H : parse_markdown_content "**Query:** q" = Ok q_doc)
    by (vm_compute; reflexivity).
  split; [exact H | exact (proj1 (parse_promoted_metadata _ _ H))].
Defined.

(** ** [_sanitize_filename] *)

Definition filename_char (c : ascii) : bool :=
  negb (invalid_filename_char c) && negb (Py.is_space c).

Lemma remove_invalid_ok (s : string) :
  all_chars (fun c => negb (invalid_filename_char c)) (remove_invalid s) = true.
Proof.
  induction s as [|c r IH]; simpl; [reflexivity|].
  destruct (invalid_filename_char c) eqn:E; simpl; [exact IH|].
  rewrite IH, E. reflexivity.
Qed.

Lemma underscore_runs_ok (b : bool) (s : string) :
  all_chars (fun c => negb (invalid_filename_char c)) s = true ->
  all_chars filename_char (underscore_runs b s) = true.
Proof.
  revert b. induction s as [|c r IH]; intros b H; simpl in *; [reflexivity|].
  apply andb_prop in H as [Hc Hr].
  destruct (Py.is_space c) eqn:Hs.
  - destruct b; simpl; [apply IH, Hr|]. rewrite IH by exact Hr. reflexivity.
  - simpl. unfold filename_char at 1. rewrite Hc, Hs. simpl. apply IH, Hr.
Qed.

Lemma all_chars_substring (p : ascii -> bool) (s : string) (n m : nat) :
  all_chars p s = true -> all_chars p (String.substring n m s) = true.
Proof.
  revert n m. induction s as [|c r IH]; intros n m H.
  - destruct n, m; reflexivity.
  - simpl in H. apply andb_prop in H as [Hc Hr].
    destruct n as [|n]; [destruct m as [|m]|]; simpl.
    + reflexivity.
    + rewrite Hc. simpl. apply (IH 0%nat), Hr.
    + apply IH, Hr.
Qed.

Lemma length_substring_le (s : string) (n m : nat) :
  (String.length (String.substring n m s) <= m)%nat.
Proof.
  revert n m. induction s as [|c r IH]; intros n m.
  - destruct n, m; simpl; lia.
  - destruct n as [|n]; [destruct m as [|m]|]; simpl.
    + lia.
    + specialize (IH 0%nat m). lia.
    + apply IH.
Qed.

Lemma lstrip_char_ok (p : ascii -> bool) (ch : ascii) (s : string) :
  all_chars p s = true ->
  all_chars p (lstrip_char ch s) = true /\
  (String.length (lstrip_char ch s) <= String.length s)%nat.
Proof.
  induction s as [|c r IH]; intros H; simpl; [split; [reflexivity|lia]|].
  simpl in H. apply andb_prop in H as [Hc Hr].
  destruct (Ascii.eqb c ch).
  - destruct (IH Hr) as [H1 H2]. split; [exact H1|lia].
  - simpl. rewrite Hc, Hr. split; [reflexivity|lia].
Qed.

Lemma rstrip_char_ok (p : ascii -> bool) (ch : ascii) (s : string) :
  all_chars p s = true ->
  all_chars p (rstrip_char ch s) = true /\
  (String.length (rstrip_char ch s) <= String.length s)%nat.
Proof.
  induction s as [|c r IH]; intros H; simpl; [split; [reflexivity|lia]|].
  simpl in H. apply andb_prop in H as [Hc Hr].
  destruct (IH Hr) as [H1 H2].
  destruct (Ascii.eqb c ch && String.eqb (rstrip_char ch r) "").
  - split; [reflexivity|simpl; lia].
  - simpl. rewrite Hc, H1. split; [reflexivity|lia].
Qed.

Lemma lstrip_char_head (ch : ascii) (s r : string) :
  lstrip_char ch s <> String ch r.
Proof.
  induction s as [|c s IH]; simpl; [discriminate|].
  destruct (Ascii.eqb c ch) eqn:E; [exact IH|].
  intros H. injection H as -> _. rewrite Ascii.eqb_refl in E. discriminate.
Qed.

Lemma rstrip_char_head (ch : ascii) (s r : string) :
  (forall r', s <> String ch r') -> rstrip_char ch s <> String ch r.
Proof.
  destruct s as [|c s]; simpl; [discriminate|]. intros Hs.
  destruct (Ascii.eqb c ch) eqn:E.
  - apply Ascii.eqb_eq in E. subst c. exfalso. exact (Hs s eq_refl).
  - simpl. intros H. injection H as -> _. rewrite Ascii.eqb_refl in E. discriminate.
Qed.

Lemma rstrip_char_tail (ch : ascii) (s : string) :
  Py.endswith_char ch (rstrip_char ch s) = false.
Proof.
  induction s as [|c r IH]; simpl; [reflexivity|].
  destruct (Ascii.eqb c ch && String.eqb (rstrip_char ch r) "") eqn:E;
    [reflexivity|].
  destruct (rstrip_char ch r) as [|c' r'] eqn:Er.
  - simpl. rewrite andb_true_r in E. rewrite Ascii.eqb_sym. exact E.
  - exact IH.
Qed.

(** X3: a sanitized file name holds none of the characters [<], [>],
    [:], the double quote, [/], the backslash, [|], [?], [*], and no
    whitespace, is at most 50 characters long,
    and neither starts nor ends with an underscore. *)
Theorem sanitize_filename_safe (text : string) :
  all_chars filename_char (_sanitize_filename text) = true /\
  (String.length (_sanitize_filename text) <= 50)%nat /\
  (forall r, _sanitize_filename text <> String "_" r) /\
  Py.endswith_char "_" (_sanitize_filename text) = false.
Proof.
  unfold _sanitize_filename, strip_char, Py.slice. cbv zeta.
  set (u := underscore_runs false (remove_invalid text)).
  assert (Hu : all_chars filename_char u = true)
    by (apply underscore_runs_ok, remove_invalid_ok).
  set (t := String.substring 0 (50 - 0) u).
  assert (Ht : all_chars filename_char t = true) by (apply all_chars_substring, Hu).
  assert (Htl : (String.length t <= 50)%nat) by apply length_substring_le.
  destruct (lstrip_char_ok filename_char "_" t Ht) as [Hl1 Hl2].
  destruct (rstrip_char_ok filename_char "_" (lstrip_char "_" t) Hl1) as [Hr1 Hr2].
  split; [exact Hr1|]. split; [lia|]. split.
  - intros r. apply rstrip_char_head. intros r'. apply lstrip_char_head.
  - apply rstrip_char_tail.
Qed.

(** ** Lines of the written markdown *)

Lemma split_on_nonempty (c : ascii) (s : string) :
  exists h t, Py.split_on c s = h :: t.
Proof.
  destruct s as [|x r]; simpl; [eauto|].
  destruct (Ascii.eqb x c); [eauto|].
  destruct (Py.split_on c r); eauto.
Qed.

Lemma split_on_app_sep (c : ascii) (a b : string) :
  Py.split_on c (a ++ String c b) = Py.split_on c a ++ Py.split_on c b.
Proof.
  induction a as [|x a IH].
  - change (Py.split_on c (String c b) = [""] ++ Py.split_on c b).
    simpl. rewrite Ascii.eqb_refl. reflexivity.
  - change (Py.split_on c (String x (a ++ String c b))
            = Py.split_on c (String x a) ++ Py.split_on c b).
    simpl. rewrite IH. destruct (Ascii.eqb x c); [reflexivity|].
    destruct (split_on_nonempty c a) as [h [t ->]]. reflexivity.
Qed.

Lemma split_on_no_sep (c : ascii) (s : string) :
  Py.contains_char c s = false -> Py.split_on c s = [s].
Proof.
  induction s as [|x r IH]; simpl; [reflexivity|].
  intros H. apply orb_false_iff in H as [Hx Hr].
  rewrite Ascii.eqb_sym, Hx, (IH Hr). reflexivity.
Qed.

Definition no_newline (s : string) : bool :=
  negb (Py.contains_char Py.newline s).

(** Lines written by [f.write(f"{w}\n\n")], one after the other. *)
Definition blocks (ws : list string) (rest : string) : string :=
  fold_right (fun w acc => (w ++ nl ++ nl ++ acc)%string) rest ws.

Lemma split_blocks (ws : list string) (rest : string) :
  forallb no_newline ws = true ->
  Py.split_on Py.newline (blocks ws rest)
  = flat_map (fun w => [w; EmptyString]) ws ++ Py.split_on Py.newline rest.
Proof.
  induction ws as [|w ws IH]; intros H; [reflexivity|].
  simpl in H. apply andb_prop in H as [Hw Hws].
  cbn [blocks fold_right]. fold (blocks ws rest).
  change (w ++ nl ++ nl ++ blocks ws rest)%string
    with (w ++ String Py.newline ("" ++ String Py.newline (blocks ws rest)))%string.
  rewrite split_on_app_sep, split_on_app_sep, IH by exact Hws.
  unfold no_newline in Hw. apply negb_true_iff in Hw.
  rewrite (split_on_no_sep _ _ Hw). reflexivity.
Qed.

Lemma lower_char_newline (c : ascii) :
  Ascii.eqb Py.newline (Py.lower_char c) = Ascii.eqb Py.newline c.
Proof. destruct c as [[] [] [] [] [] [] [] []]; vm_compute; reflexivity. Qed.

Lemma no_newline_lower (s : string) :
  no_newline (Py.lower s) = no_newline s.
Proof.
  unfold no_newline. induction s as [|c r IH]; [reflexivity|].
  cbn [Py.lower Py.contains_char]. rewrite lower_char_newline.
  destruct (Ascii.eqb Py.newline c); [reflexivity|]. exact IH.
Qed.

Definition yes_no (b : bool) : string := if b then "Yes" else "No".

Definition body_of (preserve_hierarchy : bool) (extract_format summary
    full_text : string) (sections : list wsection) : string :=
  if preserve_hierarchy && String.eqb (Py.lower extract_format) "wiki" then
    ("## Summary" ++ nl ++ nl ++ summary ++ nl ++ nl ++
     (if Py.list_truthy sections then _format_sections_to_markdown sections 2
      else "*No sections found.*" ++ nl ++ nl))%string
  else full_text.

Lemma markdown_file_blocks (title query url extract_format timestamp : string)
    (preserve_hierarchy : bool) (summary full_text : string)
    (sections : list wsection) :
  markdown_file title query url extract_format timestamp preserve_hierarchy
    summary full_text sections
  = blocks ["# " ++ title; "**Query:** " ++ query;
            "**URL:** [" ++ url ++ "](" ++ url ++ ")";
            "**Extract Format:** " ++ Py.lower extract_format;
            "**Hierarchy Preserved:** " ++ yes_no preserve_hierarchy;
            "**Extracted on:** " ++ timestamp; "---"]%string
      (body_of preserve_hierarchy extract_format summary full_text sections).
Proof.
  unfold markdown_file, blocks, body_of, yes_no. cbn [fold_right].
  rewrite !str_app_assoc. reflexivity.
Qed.

(** ** Reading back a file written by [save_full_text_to_markdown] *)

Section Roundtrip.
Local Open Scope string_scope.

Lemma rstrip_app (a b : string) :
  Py.rstrip (a ++ b) = if String.eqb (Py.rstrip b) "" then Py.rstrip a else (a ++ Py.rstrip b)%string.
Proof.
  induction a as [|c a IH].
  - simpl. destruct (String.eqb_spec (Py.rstrip b) "") as [E|E]; [exact E|reflexivity].
  - change (Py.rstrip (String c a ++ b)) with
      (let r' := Py.rstrip (a ++ b) in
       if Py.is_space c && String.eqb r' EmptyString then EmptyString else String c r').
    cbv zeta. rewrite IH. destruct (String.eqb (Py.rstrip b) "") eqn:Eb; [reflexivity|].
    replace (String.eqb (a ++ Py.rstrip b) "") with false; [rewrite andb_false_r; reflexivity|].
    symmetry. apply String.eqb_neq. intros H. destruct a; [|discriminate].
    change (Py.rstrip b = "") in H. rewrite H in Eb. discriminate.
Qed.


Lemma length_app_str (a b : string) :
  String.length (a ++ b) = (String.length a + String.length b)%nat.
Proof.
  induction a as [|c a IH]; [reflexivity|].
  change (S (String.length (a ++ b)) = S (String.length a + String.length b))%nat.
  rewrite IH. reflexivity.
Qed.

Lemma substring_all (s : string) : String.substring 0 (String.length s) s = s.
Proof. induction s as [|c r IH]; simpl; [reflexivity|]. rewrite IH. reflexivity. Qed.

Lemma substring_app (a b : string) (m : nat) :
  String.substring (String.length a) m (a ++ b) = String.substring 0 m b.
Proof.
  induction a as [|c a IH]; [reflexivity|].
  change (String.substring (String.length a) m (a ++ b) = String.substring 0 m b).
  exact IH.
Qed.

Lemma slice_from_app (a b : string) :
  Py.slice_from (a ++ b) (String.length a) = b.
Proof.
  unfold Py.slice_from. rewrite length_app_str.
  replace (String.length a + String.length b - String.length a)%nat
    with (String.length b) by lia.
  rewrite substring_app. apply substring_all.
Qed.

Lemma rstrip_idem (s : string) : Py.rstrip (Py.rstrip s) = Py.rstrip s.
Proof.
  induction s as [|c r IH]; [reflexivity|]. cbn [Py.rstrip].
  destruct (Py.is_space c && String.eqb (Py.rstrip r) "") eqn:E; [reflexivity|].
  cbn [Py.rstrip]. rewrite IH, E. reflexivity.
Qed.

Lemma lstrip_rstrip (s : string) : Py.lstrip (Py.rstrip s) = Py.rstrip (Py.lstrip s).
Proof.
  induction s as [|c r IH]; [reflexivity|]. cbn [Py.rstrip Py.lstrip].
  destruct (Py.is_space c) eqn:Hc; cbn [andb].
  - destruct (String.eqb_spec (Py.rstrip r) "") as [E|E].
    + rewrite E in IH. exact IH.
    + cbn [Py.lstrip]. rewrite Hc. exact IH.
  - cbn [Py.lstrip Py.rstrip]. rewrite Hc. reflexivity.
Qed.

Lemma strip_rstrip (s : string) : Py.strip (Py.rstrip s) = Py.strip s.
Proof. unfold Py.strip. rewrite lstrip_rstrip, rstrip_idem. reflexivity. Qed.

Lemma strip_lit (a b : string) :
  Py.lstrip (a ++ b) = (a ++ b)%string -> Py.rstrip a = a ->
  Py.strip (a ++ b) = (a ++ Py.rstrip b)%string.
Proof.
  intros Hl Hr. unfold Py.strip. rewrite Hl, rstrip_app, Hr.
  destruct (String.eqb_spec (Py.rstrip b) "") as [E|E]; [|reflexivity].
  rewrite E, str_app_nil_r. reflexivity.
Qed.

Ltac meta_line :=
  intros; unfold metadata_entry;
  match goal with |- context [Py.find ":**" (?lit ++ ?v)] =>
    let n := eval vm_compute in (Py.find ":**" lit) in
    replace (Py.find ":**" (lit ++ v)) with n by (destruct v; reflexivity);
    change (Z.to_nat n + 3)%nat with (String.length lit);
    rewrite slice_from_app; reflexivity
  end.

Lemma meta_query (v : string) :
  metadata_entry ("**Query:**" ++ v) = Some ("query", Py.strip v).
Proof. meta_line. Qed.
Lemma meta_url (v : string) :
  metadata_entry ("**URL:**" ++ v) = Some ("url", Py.strip v).
Proof. meta_line. Qed.
Lemma meta_format (v : string) :
  metadata_entry ("**Extract Format:**" ++ v) = Some ("extract_format", Py.strip v).
Proof. meta_line. Qed.
Lemma meta_on (v : string) :
  metadata_entry ("**Extracted on:**" ++ v) = Some ("extracted_on", Py.strip v).
Proof. meta_line. Qed.
Lemma meta_hier (v : string) :
  metadata_entry ("**Hierarchy Preserved:**" ++ v) = Some ("hierarchy_preserved", Py.strip v).
Proof. meta_line. Qed.

Lemma strip_query (q : string) :
  Py.strip ("**Query:** " ++ q) = ("**Query:**" ++ Py.rstrip (" " ++ q))%string.
Proof. apply (strip_lit "**Query:**" (" " ++ q)); reflexivity. Qed.

Lemma strip_url (u : string) :
  Py.strip ("**URL:** [" ++ u ++ "](" ++ u ++ ")")
  = ("**URL:**" ++ Py.rstrip (" [" ++ u ++ "](" ++ u ++ ")"))%string.
Proof. apply (strip_lit "**URL:**" (" [" ++ u ++ "](" ++ u ++ ")")); reflexivity. Qed.
Lemma strip_format (v : string) :
  Py.strip ("**Extract Format:** " ++ v) = ("**Extract Format:**" ++ Py.rstrip (" " ++ v))%string.
Proof. apply (strip_lit "**Extract Format:**" (" " ++ v)); reflexivity. Qed.
Lemma strip_hier (v : string) :
  Py.strip ("**Hierarchy Preserved:** " ++ v) = ("**Hierarchy Preserved:**" ++ Py.rstrip (" " ++ v))%string.
Proof. apply (strip_lit "**Hierarchy Preserved:**" (" " ++ v)); reflexivity. Qed.
Lemma strip_on (v : string) :
  Py.strip ("**Extracted on:** " ++ v) = ("**Extracted on:**" ++ Py.rstrip (" " ++ v))%string.
Proof. apply (strip_lit "**Extracted on:**" (" " ++ v)); reflexivity. Qed.

Lemma strip_link (u : string) :
  Py.strip (" [" ++ u ++ "](" ++ u ++ ")") = ("[" ++ u ++ "](" ++ u ++ ")")%string.
Proof.
  change (Py.rstrip ("[" ++ u ++ "](" ++ u ++ ")") = ("[" ++ u ++ "](" ++ u ++ ")")%string).
  replace ("[" ++ u ++ "](" ++ u ++ ")")%string with (("[" ++ u ++ "](" ++ u) ++ ")")%string
    by (rewrite !str_app_assoc; reflexivity).
  rewrite rstrip_app. reflexivity.
Qed.

Lemma parse_lines_step (fuel : nat) (lines : list string) (i : nat) (st : pstate)
    (raw line : string) (k : line_kind) :
  nth_error lines i = Some raw ->
  Py.strip raw = line ->
  classify (separator_found st) lines i line = Ok k ->
  parse_lines (S fuel) lines i st
  = parse_lines fuel lines (S i) (apply_kind k line st).
Proof.
  intros Hn Hs Hk. simpl.
  assert (Hi : (i < length lines)%nat) by (apply nth_error_Some; congruence).
  apply Nat.ltb_lt in Hi. rewrite Hi. unfold py_index. rewrite Hn. simpl.
  rewrite Hs, Hk. reflexivity.
Qed.

Lemma startswith_app (p s : string) : Py.startswith p (p ++ s) = true.
Proof.
  unfold Py.startswith. induction p as [|c p IH].
  - destruct s; reflexivity.
  - change (String.prefix (String c p) (String c (p ++ s)) = true). simpl.
    destruct (Ascii.ascii_dec c c); [exact IH | congruence].
Qed.

Lemma strip_title (t : string) :
  Py.strip ("# " ++ t) = ("#" ++ Py.rstrip (" " ++ t))%string.
Proof. apply (strip_lit "#" (" " ++ t)); reflexivity. Qed.

Definition header_lines (title query url fmt yn ts : string) : list string :=
  ["# " ++ title; "**Query:** " ++ query;
   "**URL:** [" ++ url ++ "](" ++ url ++ ")";
   "**Extract Format:** " ++ fmt; "**Hierarchy Preserved:** " ++ yn;
   "**Extracted on:** " ++ ts; "---"]%string.

Definition header_doc (query url fmt yn ts : string) : document :=
  add_metadata (add_metadata (add_metadata (add_metadata (add_metadata
    empty_document ("query", Py.strip query))
    ("url", "[" ++ url ++ "](" ++ url ++ ")")%string)
    ("extract_format", Py.strip fmt))
    ("hierarchy_preserved", Py.strip yn))
    ("extracted_on", Py.strip ts).

Ltac hstep L i raw line k :=
  match goal with H : parse_lines _ _ _ _ = _ |- _ =>
    rewrite (parse_lines_step _ L i _ raw line k) in H;
    [ cbn [apply_kind] in H | reflexivity | .. ] end.

Lemma parse_header title query url fmt yn ts body st' :
  let L := (flat_map (fun w => [w; EmptyString])
              (header_lines title query url fmt yn ts) ++ body)%list in
  parse_lines (length L) L 0 init_pstate = Ok st' ->
  parse_lines (length body) L 14
    (mk_pstate (header_doc query url fmt yn ts) None [] true) = Ok st'.
Proof.
  intros L H.
  assert (HL : length L = (14 + length body)%nat)
    by (unfold L; rewrite length_app; reflexivity).
  rewrite HL in H. cbn [Nat.add] in H.
  hstep L 0%nat ("# " ++ title)%string ("#" ++ Py.rstrip (" " ++ title))%string TitleLine;
    [| apply strip_title | unfold classify; rewrite startswith_app; reflexivity].
  hstep L 1%nat "" "" SkippedLine; [| reflexivity | reflexivity].
  hstep L 2%nat ("**Query:** " ++ query)%string
    ("**Query:**" ++ Py.rstrip (" " ++ query))%string MetadataLine;
    [| apply strip_query | reflexivity].
  rewrite meta_query in H. cbv beta iota in H.
  hstep L 3%nat "" "" SkippedLine; [| reflexivity | reflexivity].
  hstep L 4%nat ("**URL:** [" ++ url ++ "](" ++ url ++ ")")%string
    ("**URL:**" ++ Py.rstrip (" [" ++ url ++ "](" ++ url ++ ")"))%string MetadataLine;
    [| apply strip_url | reflexivity].
  rewrite meta_url in H. cbv beta iota in H.
  hstep L 5%nat "" "" SkippedLine; [| reflexivity | reflexivity].
  hstep L 6%nat ("**Extract Format:** " ++ fmt)%string
    ("**Extract Format:**" ++ Py.rstrip (" " ++ fmt))%string MetadataLine;
    [| apply strip_format | reflexivity].
  rewrite meta_format in H. cbv beta iota in H.
  hstep L 7%nat "" "" SkippedLine; [| reflexivity | reflexivity].
  hstep L 8%nat ("**Hierarchy Preserved:** " ++ yn)%string
    ("**Hierarchy Preserved:**" ++ Py.rstrip (" " ++ yn))%string MetadataLine;
    [| apply strip_hier | reflexivity].
  rewrite meta_hier in H. cbv beta iota in H.
  hstep L 9%nat "" "" SkippedLine; [| reflexivity | reflexivity].
  hstep L 10%nat ("**Extracted on:** " ++ ts)%string
    ("**Extracted on:**" ++ Py.rstrip (" " ++ ts))%string MetadataLine;
    [| apply strip_on | reflexivity].
  rewrite meta_on in H. cbv beta iota in H.
  hstep L 11%nat "" "" SkippedLine; [| reflexivity | reflexivity].
  hstep L 12%nat "---" "---" SeparatorLine; [| reflexivity | reflexivity].
  hstep L 13%nat "" "" SkippedLine; [| reflexivity | reflexivity].
  rewrite !strip_rstrip, strip_link in H. exact H.
Qed.

Definition meta_of (d : document) :=
  (metadata d, query d, url d, format d, extracted_at d).

Lemma add_section_meta (d : document) (t : string) (buf : list string) (lvl : Z) :
  meta_of (_add_section_to_document d t buf lvl) = meta_of d.
Proof.
  unfold _add_section_to_document. cbv zeta.
  destruct (2 <? lvl)%Z; [|reflexivity].
  destruct (_find_parent_section _ _) as [pk|]; [|reflexivity].
  destruct (Py.truthy pk); reflexivity.
Qed.

Lemma save_previous_meta (d d' : document) cur buf lvl :
  save_previous d cur buf lvl = Some d' -> meta_of d' = meta_of d.
Proof.
  unfold save_previous. destruct cur as [t|]; [|discriminate].
  destruct (_ && _); [intros [= <-]; reflexivity|].
  destruct (_ && _); [intros [= <-]; apply add_section_meta | discriminate].
Qed.

Lemma classify_after_sep (lines : list string) (i : nat) (line : string) :
  classify true lines i line <> Ok MetadataLine.
Proof.
  unfold classify.
  destruct (Py.startswith "#" line); [intros [=]|].
  destruct (String.eqb line "---"); [intros [=]|].
  cbn [negb andb orb]. destruct (Py.truthy line); cbn [negb orb]; [|intros [=]].
  destruct (header_match line) as [[h t]|]; [intros [=]|].
  destruct (title_candidate lines i line) as [[|]|e]; cbn [rbind]; [|intros [=]|intros [=]].
  destruct (next_few_lines lines i) as [nxt|e]; cbn [rbind]; [|intros [=]].
  destruct (_ && _); intros [=].
Qed.

Lemma apply_kind_meta (k : line_kind) (line : string) (st : pstate) :
  k <> MetadataLine -> meta_of (doc (apply_kind k line st)) = meta_of (doc st).
Proof.
  intros Hk. destruct k; simpl; try reflexivity; [congruence| | |].
  - destruct (save_previous _ _ _ _) eqn:E; [|reflexivity].
    apply save_previous_meta in E. exact E.
  - destruct (save_previous _ _ _ 2) eqn:E; [|reflexivity].
    apply save_previous_meta in E. exact E.
  - destruct (Py.truthy line); reflexivity.
Qed.

Lemma parse_lines_after_sep (fuel : nat) (lines : list string) (i : nat) (st st' : pstate) :
  separator_found st = true -> parse_lines fuel lines i st = Ok st' ->
  meta_of (doc st') = meta_of (doc st) /\ separator_found st' = true.
Proof.
  revert i st. induction fuel as [|fuel IH]; intros i st Hs H; cbn [parse_lines] in H.
  - injection H as <-. auto.
  - destruct (i <? length lines)%nat; [|injection H as <-; auto].
    destruct (py_index lines i) as [raw|e]; cbn [rbind] in H; [|discriminate].
    rewrite Hs in H.
    destruct (classify true lines i (Py.strip raw)) as [k|e] eqn:Ek;
      cbn [rbind] in H; [|discriminate].
    assert (Hk : k <> MetadataLine) by (intros ->; exact (classify_after_sep _ _ _ Ek)).
    apply IH in H as [H1 H2].
    + rewrite H1. split; [apply apply_kind_meta, Hk | exact H2].
    + rewrite separator_found_apply, Hs. destruct k; reflexivity.
Qed.

Lemma header_doc_meta (query url fmt yn ts : string) :
  meta_of (header_doc query url fmt yn ts)
  = (<["extracted_on" := Py.strip ts]> (<["hierarchy_preserved" := Py.strip yn]>
      (<["extract_format" := Py.strip fmt]>
      (<["url" := "[" ++ url ++ "](" ++ url ++ ")"]> (<["query" := Py.strip query]> ∅)))),
     Some (Py.strip query), Some ("[" ++ url ++ "](" ++ url ++ ")"),
     Some (Py.strip fmt), Some (Py.strip ts))%string.
Proof. reflexivity. Qed.

Lemma contains_char_app (c : ascii) (a b : string) :
  Py.contains_char c (a ++ b) = Py.contains_char c a || Py.contains_char c b.
Proof.
  induction a as [|x a IH]; [reflexivity|].
  change (Ascii.eqb c x || Py.contains_char c (a ++ b)
          = (Ascii.eqb c x || Py.contains_char c a) || Py.contains_char c b).
  rewrite IH, orb_assoc. reflexivity.
Qed.

Lemma no_newline_app (a b : string) :
  no_newline (a ++ b) = no_newline a && no_newline b.
Proof. unfold no_newline. rewrite contains_char_app. apply negb_orb. Qed.

(** The header of a written markdown file, read back. *)
Lemma markdown_file_meta (title q u extract_format timestamp : string)
    (preserve_hierarchy : bool) (summary full_text : string)
    (sections : list wsection) :
  no_newline title = true -> no_newline q = true -> no_newline u = true ->
  no_newline extract_format = true -> no_newline timestamp = true ->
  exists d,
    parse_markdown_content
      (markdown_file title q u extract_format timestamp
         preserve_hierarchy summary full_text sections) = Ok d /\
    metadata d =
      <["extracted_on" := Py.strip timestamp]>
      (<["hierarchy_preserved" := yes_no preserve_hierarchy]>
      (<["extract_format" := Py.strip (Py.lower extract_format)]>
      (<["url" := "[" ++ u ++ "](" ++ u ++ ")"]>
      (<["query" := Py.strip q]> ∅))))%string /\
    query d = Some (Py.strip q) /\
    url d = Some ("[" ++ u ++ "](" ++ u ++ ")")%string /\
    format d = Some (Py.strip (Py.lower extract_format)) /\
    extracted_at d = Some (Py.strip timestamp).
Proof.
  intros Ht Hq Hu Hf Hts.
  match goal with |- exists d, parse_markdown_content ?x = _ /\ _ =>
    destruct (parse_ok x) as [d Hd] end.
  exists d. split; [exact Hd|].
  apply parse_markdown_content_run in Hd as [st [Hrun Hd]].
  rewrite markdown_file_blocks in Hrun.
  rewrite split_blocks in Hrun.
  2:{ cbn [forallb]. rewrite !no_newline_app, no_newline_lower, Ht, Hq, Hu, Hf, Hts.
      destruct preserve_hierarchy; reflexivity. }
  pose proof (parse_header title q u (Py.lower extract_format)
                (yes_no preserve_hierarchy) timestamp _ st Hrun) as Hh.
  apply parse_lines_after_sep in Hh as [Hm _]; [|reflexivity].
  assert (Hmd : meta_of d = meta_of (doc st)).
  { rewrite Hd. destruct (save_previous _ _ _ 2) eqn:E; [|reflexivity].
    apply save_previous_meta in E. exact E. }
  rewrite Hm in Hmd. cbn [doc] in Hmd. rewrite header_doc_meta in Hmd. unfold meta_of in Hmd.
  replace (Py.strip (yes_no preserve_hierarchy)) with (yes_no preserve_hierarchy)
    in Hmd by (destruct preserve_hierarchy; reflexivity).
  injection Hmd as H1 H2 H3 H4 H5. auto.
Qed.

(** X4: a markdown file written by [save_full_text_to_markdown] (title,
    query, URL, format and timestamp without newlines) parses back with
    exactly the five header entries as metadata: the stripped query, the
    URL link, the stripped lower-cased format, ["Yes"]/["No"] and the
    stripped timestamp, promoted to the document's fields; the body never
    changes them. *)
Theorem markdown_file_metadata (title q u extract_format timestamp : string)
    (preserve_hierarchy : bool) (summary full_text : string)
    (sections : list wsection) :
  no_newline title = true -> no_newline q = true -> no_newline u = true ->
  no_newline extract_format = true -> no_newline timestamp = true ->
  exists d,
    parse_markdown_content
      (markdown_file title q u extract_format timestamp
         preserve_hierarchy summary full_text sections) = Ok d /\
    metadata d =
      <["extracted_on" := Py.strip timestamp]>
      (<["hierarchy_preserved" := yes_no preserve_hierarchy]>
      (<["extract_format" := Py.strip (Py.lower extract_format)]>
      (<["url" := "[" ++ u ++ "](" ++ u ++ ")"]>
      (<["query" := Py.strip q]> ∅))))%string /\
    query d = Some (Py.strip q) /\
    url d = Some ("[" ++ u ++ "](" ++ u ++ ")")%string /\
    format d = Some (Py.strip (Py.lower extract_format)) /\
    extracted_at d = Some (Py.strip timestamp).
Proof. exact (markdown_file_meta title q u extract_format timestamp
  preserve_hierarchy summary full_text sections). Qed.

Lemma markdown_file_metadata_witness :
  exists d,
    parse_markdown_content
      (markdown_file "Malaria" " malaria " "u" "WIKI" "t" true "S" "" []) = Ok d /\
    query d = Some "malaria" /\ format d = Some "wiki".
Proof.
  destruct (markdown_file_metadata "Malaria" " malaria " "u" "WIKI" "t" true "S" "" [])
    as [d [H1 [_ [H2 [_ [H3 _]]]]]]; try reflexivity.
  exists d. split; [exact H1|]. rewrite H2, H3. split; vm_compute; reflexivity.
Defined.

End Roundtrip.

(** ** Answering the duplicate prompt *)

Lemma prompt_loop_invalid (pre : list string) (rest : list input_event) :
  Forall (fun s => choice_action (Py.strip s) = None) pre ->
  prompt_loop (map InputLine pre ++ rest) = prompt_loop rest.
Proof.
  induction 1 as [|s pre Hs _ IH]; [reflexivity|].
  cbn [map app prompt_loop]. rewrite Hs. exact IH.
Qed.

(** X5: invalid answers are asked again: lines that are none of [1]-[4]
    and [skip]/[add]/[update]/[overwrite] are passed over, and if input
    ends or is interrupted before a valid answer the answer is ['skip']. *)
Theorem prompt_retries (new_document : stored) (existing_docs : list (Z * stored))
    (pre : list string) (rest : list input_event) :
  Forall (fun s => choice_action (Py.strip s) = None) pre ->
  _prompt_duplicate_action new_document existing_docs (map InputLine pre ++ rest)
  = _prompt_duplicate_action new_document existing_docs rest /\
  _prompt_duplicate_action new_document existing_docs (map InputLine pre) = Skip /\
  _prompt_duplicate_action new_document existing_docs
    (map InputLine pre ++ InputInterrupt :: rest) = Skip.
Proof.
  intros H. unfold _prompt_duplicate_action.
  split; [now apply prompt_loop_invalid|].
  split.
  - rewrite <- (app_nil_r (map InputLine pre)). now rewrite prompt_loop_invalid.
  - now rewrite prompt_loop_invalid.
Qed.

Lemma prompt_retries_witness :
  Forall (fun s => choice_action (Py.strip s) = None) ["5"; "yes"]%string /\
  _prompt_duplicate_action q_stored [] (map InputLine ["5"; "yes"]%string
                                          ++ [InputLine " Update "])
  = _prompt_duplicate_action q_stored [] [InputLine " Update "].
Proof.
  assert (H : Forall (fun s => choice_action (Py.strip s) = None) ["5"; "yes"]%string)
    by (repeat constructor).
  split; [exact H | exact (proj1 (prompt_retries q_stored [] _ _ H))].
Defined.

(** X6: the prompt never answers [add], [update] or [overwrite] unless
    the user typed that answer: some input line, stripped, is its digit
    or its name (in any case). *)
Theorem prompt_answer_typed (new_document : stored)
    (existing_docs : list (Z * stored)) (inputs : list input_event) (a : action) :
  _prompt_duplicate_action new_document existing_docs inputs = a -> a <> Skip ->
  exists s, In (InputLine s) inputs /\ choice_action (Py.strip s) = Some a.
Proof.
  unfold _prompt_duplicate_action. intros <-.
  induction inputs as [|[s|] r IH]; cbn [prompt_loop]; [congruence| |congruence].
  destruct (choice_action (Py.strip s)) as [a|] eqn:E.
  - intros _. exists s. split; [left; reflexivity | exact E].
  - intros Hn. destruct (IH Hn) as [s' [Hin Hs']]. exists s'. split; [right|]; assumption.
Qed.

Lemma prompt_answer_typed_witness :
  exists s, In (InputLine s) [InputLine "x"; InputLine " 4 "]%string /\
    choice_action (Py.strip s) = Some Overwrite.
Proof.
  apply (prompt_answer_typed q_stored [] _ Overwrite); [reflexivity | discriminate].
Defined.

(** ** Duplicates and the store *)

Lemma find_one_some (f : stored -> option string) (v : string) (c : collection)
    (e : Z * stored) :
  find_one f v c = Some e -> In e c /\ f (snd e) = Some v.
Proof.
  unfold find_one. intros H. apply find_some in H as [Hin Hf]. split; [exact Hin|].
  destruct (f (snd e)) as [w|]; [|discriminate].
  apply String.eqb_eq in Hf. now subst.
Qed.

Lemma find_duplicates_sub (c : collection) (s : stored) :
  (length (_find_duplicate_documents c s) <= 1)%nat /\
  forall e, In e (_find_duplicate_documents c s) -> In e c.
Proof.
  assert (Ho : forall f v, (length (option_list (find_one f v c)) <= 1)%nat /\
            forall e, In e (option_list (find_one f v c)) -> In e c).
  { intros f v. destruct (find_one f v c) as [e0|] eqn:E; cbn; [|split; [lia|tauto]].
    split; [lia|]. intros e [<-|[]]. exact (find_one_in _ _ _ _ E). }
  unfold _find_duplicate_documents.
  set (dup := match query_value s with
              | Some q => if Py.truthy q then option_list (find_one query_of q c) else []
              | None => [] end).
  assert (Hd : (length dup <= 1)%nat /\ forall e, In e dup -> In e c).
  { unfold dup. destruct (query_value s) as [q|]; [|cbn; split; [lia|tauto]].
    destruct (Py.truthy q); [apply Ho|cbn; split; [lia|tauto]]. }
  destruct (url_value s) as [u|]; [|exact Hd].
  destruct (_ && _); [apply Ho|exact Hd].
Qed.

(** X7: [_find_duplicate_documents] returns at most one document, taken
    from the collection: either one whose ['query'] is the new document's
    (non-empty) query value, or, only when no stored document has that
    query, one whose ['url'] is its (non-empty) URL value. *)
Theorem find_duplicates_match (c : collection) (s : stored) :
  (length (_find_duplicate_documents c s) <= 1)%nat /\
  forall e, In e (_find_duplicate_documents c s) ->
    In e c /\
    ((exists q, query_value s = Some q /\ Py.truthy q = true /\
                query_of (snd e) = Some q) \/
     (exists u, url_value s = Some u /\ Py.truthy u = true /\
                url_of (snd e) = Some u /\
                forall q, query_value s = Some q -> Py.truthy q = true ->
                          find_one query_of q c = None)).
Proof.
  destruct (find_duplicates_sub c s) as [Hl Hin]. split; [exact Hl|].
  intros e He. split; [exact (Hin e He)|].
  unfold _find_duplicate_documents in He.
  destruct (query_value s) as [q|] eqn:Eq;
    [destruct (Py.truthy q) eqn:Et; [destruct (find_one query_of q c) as [e0|] eqn:Ef|]|].
  - (* found by query *)
    destruct (url_value s) as [u|]; cbn [option_list Py.list_truthy negb] in He;
      [rewrite andb_false_r in He|];
      destruct He as [<-|[]]; left; exists q; repeat split; try assumption;
      exact (proj2 (find_one_some _ _ _ _ Ef)).
  - destruct (url_value s) as [u|] eqn:Eu; cbn [option_list Py.list_truthy negb] in He;
      [|destruct He].
    rewrite andb_true_r in He. destruct (Py.truthy u) eqn:Etu; [|destruct He].
    destruct (find_one url_of u c) as [e1|] eqn:Ef1; cbn in He; [|destruct He].
    destruct He as [<-|[]]. right. exists u. repeat split; try assumption.
    + exact (proj2 (find_one_some _ _ _ _ Ef1)).
    + intros q' Hq' _. congruence.
  - destruct (url_value s) as [u|] eqn:Eu; cbn [Py.list_truthy negb] in He; [|destruct He].
    rewrite andb_true_r in He. destruct (Py.truthy u) eqn:Etu; [|destruct He].
    destruct (find_one url_of u c) as [e1|] eqn:Ef1; cbn in He; [|destruct He].
    destruct He as [<-|[]]. right. exists u. repeat split; try assumption.
    + exact (proj2 (find_one_some _ _ _ _ Ef1)).
    + intros q' Hq' Ht. congruence.
  - destruct (url_value s) as [u|] eqn:Eu; cbn [Py.list_truthy negb] in He; [|destruct He].
    rewrite andb_true_r in He. destruct (Py.truthy u) eqn:Etu; [|destruct He].
    destruct (find_one url_of u c) as [e1|] eqn:Ef1; cbn in He; [|destruct He].
    destruct He as [<-|[]]. right. exists u. repeat split; try assumption.
    + exact (proj2 (find_one_some _ _ _ _ Ef1)).
    + intros q' Hq' _. congruence.
Qed.

Lemma delete_first_incl (i : Z) (c : collection) (x : Z * stored) :
  In x (delete_first i c) -> In x c.
Proof.
  induction c as [|e c IH]; cbn [delete_first]; [tauto|].
  destruct (fst e =? i); [intros H; right; exact H|].
  intros [<-|H]; [left; reflexivity|right; apply IH, H].
Qed.






Lemma fold_delete_one (e0 : Z * stored) (st : store) :
  fold_left (fun st' e => delete_one (fst e) st') [e0] st = delete_one (fst e0) st.
Proof. reflexivity. Qed.

(** The answer [update]. *)
Definition is_update (a : action) : bool :=
  match a with Update => true | _ => false end.





Lemma store_in_shape (doc_fits : option Z -> stored -> bool) (st : store) (s : stored)
    (interactive : bool)
    (prompt : stored -> list (Z * stored) -> action) (now : Z) (n : Z) (st' : store) :
  store_in doc_fits st s interactive prompt now = (Some n, st') ->
  docs st' = docs st ++ [(n, s)] \/
  (exists e0, In e0 (docs st) /\ docs st' = delete_first (fst e0) (docs st) ++ [(n, s)]) \/
  (exists e0, In e0 (docs st) /\ n = fst e0 /\
              docs st' = replace_first n (set_updated s now) (docs st)).
Proof.
  unfold store_in. destruct (find_duplicates_sub (docs st) s) as [Hl Hsub].
  destruct (_find_duplicate_documents (docs st) s) as [|e0 rest] eqn:Ed.
  - destruct (accepts _ _ _); [|discriminate].
    unfold insert_one. intros [= <- <-]. left. reflexivity.
  - assert (Hin0 : In e0 (docs st)) by (apply Hsub; left; reflexivity).
    assert (Hr : rest = []) by (destruct rest; [reflexivity|cbn in Hl; lia]). subst rest.
    assert (Hu : forall carried,
                 (if accepts doc_fits carried (set_updated s now)
                  then (Some (fst e0), replace_one (fst e0) (set_updated s now) st)
                  else (None, st)) = (Some n, st') ->
                 docs st' = docs st ++ [(n, s)] \/
                 (exists e0, In e0 (docs st) /\
                             docs st' = delete_first (fst e0) (docs st) ++ [(n, s)]) \/
                 (exists e0, In e0 (docs st) /\ n = fst e0 /\
                             docs st' = replace_first n (set_updated s now) (docs st))).
    { intros carried. destruct (accepts doc_fits carried (set_updated s now)); [|discriminate].
      intros [= <- <-]. right; right. exists e0. auto. }
    destruct interactive; [|exact (Hu None)].
    destruct (prompt s [e0]); [discriminate| | exact (Hu _) |].
    + destruct (accepts _ _ _); [|discriminate].
      unfold insert_one. intros [= <- <-]. left. reflexivity.
    + rewrite fold_delete_one. destruct (accepts _ _ _); [|discriminate].
      unfold insert_one, delete_one. cbn [docs next_id].
      intros [= <- <-]. right; left. exists e0. auto.
Qed.

Lemma find_app_last {A} (f : A -> bool) (c : list A) (x : A) :
  (forall e, In e c -> f e = false) -> f x = true -> List.find f (c ++ [x]) = Some x.
Proof.
  intros H Hx. induction c as [|e c IH]; cbn; [rewrite Hx; reflexivity|].
  rewrite (H e (or_introl eq_refl)). apply IH. intros e' He'. apply H. right. exact He'.
Qed.

Lemma find_replace_first (f : Z * stored -> bool) (c : collection) (i : Z) (t : stored)
    (e0 : Z * stored) :
  (forall e, In e c -> f e = false) -> f (i, t) = true -> In e0 c -> fst e0 = i ->
  List.find f (replace_first i t c) = Some (i, t).
Proof.
  intros H Ht Hin Hi. induction c as [|e c IH]; [destruct Hin|]. cbn [replace_first].
  destruct (Z.eqb_spec (fst e) i) as [E|E]; cbn [List.find]; [rewrite Ht; reflexivity|].
  rewrite (H e (or_introl eq_refl)). destruct Hin as [<-|Hin]; [contradiction|].
  apply IH; [intros e' He'; apply H; right; exact He'|exact Hin].
Qed.

Lemma ci_prefix_refl (p : string) : ci_prefix p p = true.
Proof.
  induction p as [|a p IH]; [reflexivity|]. cbn [ci_prefix].
  unfold ci_eq. rewrite Ascii.eqb_refl. exact IH.
Qed.

Lemma regex_ci_self (q : string) : regex_ci q (Some q) = true.
Proof.
  unfold regex_ci. destruct q as [|a q]; [reflexivity|].
  cbn [ci_search]. rewrite ci_prefix_refl. reflexivity.
Qed.

Lemma store_in_value (doc_fits : option Z -> stored -> bool) (st : store) (s : stored)
    (interactive : bool)
    (prompt : stored -> list (Z * stored) -> action) (now : Z) (n : Z) (st' : store) :
  store_in doc_fits st s interactive prompt now = (Some n, st') ->
  let existing := _find_duplicate_documents (docs st) s in
  let v := if Py.list_truthy existing && (negb interactive || is_update (prompt s existing))
           then set_updated s now else s in
  docs st' = docs st ++ [(n, v)] \/
  (exists e0, In e0 (docs st) /\ docs st' = delete_first (fst e0) (docs st) ++ [(n, v)]) \/
  (exists e0, In e0 (docs st) /\ n = fst e0 /\ docs st' = replace_first n v (docs st)).
Proof.
  cbv zeta. unfold store_in. destruct (find_duplicates_sub (docs st) s) as [Hl Hsub].
  destruct (_find_duplicate_documents (docs st) s) as [|e0 rest] eqn:Ed.
  - destruct (accepts _ _ _); [|discriminate].
    unfold insert_one. intros [= <- <-]. left. reflexivity.
  - assert (Hin0 : In e0 (docs st)) by (apply Hsub; left; reflexivity).
    assert (Hr : rest = []) by (destruct rest; [reflexivity|cbn in Hl; lia]). subst rest.
    cbn [Py.list_truthy andb].
    assert (Hu : forall carried,
                 (if accepts doc_fits carried (set_updated s now)
                  then (Some (fst e0), replace_one (fst e0) (set_updated s now) st)
                  else (None, st)) = (Some n, st') ->
                 exists e0, In e0 (docs st) /\ n = fst e0 /\
                   docs st' = replace_first n (set_updated s now) (docs st)).
    { intros carried. destruct (accepts doc_fits carried (set_updated s now)); [|discriminate].
      intros [= <- <-]. exists e0. auto. }
    destruct interactive; cbn [negb orb]; [|intros E; right; right; exact (Hu None E)].
    destruct (prompt s [e0]); cbn [is_update]; [discriminate| | |].
    + destruct (accepts _ _ _); [|discriminate].
      unfold insert_one. intros [= <- <-]. left. reflexivity.
    + intros E. right; right. exact (Hu _ E).
    + rewrite fold_delete_one. destruct (accepts _ _ _); [|discriminate].
      unfold insert_one, delete_one. cbn [docs next_id].
      intros [= <- <-]. right; left. exists e0. auto.
Qed.

Lemma get_by_query (object_id : string -> option Z) (c : collection) (q : string) :
  get_wikipedia_document object_id (Some c) (Some q) None =
  if Py.truthy q then if regex_ok q then List.find (fun e => title_filter q (snd e)) c
                      else None
  else None.
Proof. reflexivity. Qed.

Lemma get_after_store (doc_fits : option Z -> stored -> bool)
    (object_id : string -> option Z) (st : store)
    (s : stored) (interactive : bool) (prompt : stored -> list (Z * stored) -> action)
    (now : Z) (n : Z) (st' : store) (q : string) :
  store_in doc_fits st s interactive prompt now = (Some n, st') ->
  query_of s = Some q -> Py.truthy q = true -> regex_ok q = true ->
  (forall e, In e (docs st) -> title_filter q (snd e) = false) ->
  get_wikipedia_document object_id (Some (docs st')) (Some q) None
  = Some (n, if Py.list_truthy (_find_duplicate_documents (docs st) s)
                && (negb interactive
                    || is_update (prompt s (_find_duplicate_documents (docs st) s)))
             then set_updated s now else s).
Proof.
  intros E Hq Ht Hr Hno. rewrite get_by_query, Ht, Hr.
  set (v := if _ && _ then set_updated s now else s).
  assert (Hs : title_filter q v = true)
    by (unfold v; destruct (_ && _); unfold title_filter;
        change (query_of (set_updated s now)) with (query_of s);
        rewrite Hq, regex_ci_self; reflexivity).
  destruct (store_in_value _ _ _ _ _ _ _ _ E) as [H|[[e0 [Hin H]]|[e0 [Hin [Hn H]]]]];
    fold v in H; rewrite H.
  - apply (find_app_last (fun e => title_filter q (snd e))); [|exact Hs].
    intros e He. apply Hno, He.
  - apply (find_app_last (fun e => title_filter q (snd e))); [|exact Hs].
    intros e He. apply Hno, (delete_first_incl (fst e0)), He.
  - apply (find_replace_first (fun e => title_filter q (snd e)) _ _ _ e0);
      [exact Hno | exact Hs | exact Hin | symmetry; exact Hn].
Qed.

(** X9: a document stored with a non-empty query [q] that MongoDB
    accepts as a [$regex] (no NUL character, at most 32764 bytes once
    escaped), into a collection where no document's ['query'] or
    ['metadata.query'] contains [q] (case-insensitively), is what
    [get_wikipedia_document(query=q)] then returns whenever [store]
    returned an id: the document under that id, with ['updated_at'] set
    exactly when it replaced the URL duplicate ([interactive=False], or
    the user chose update) and as given otherwise (no duplicate, add or
    overwrite). *)
Theorem store_then_get_by_query (doc_fits : option Z -> stored -> bool)
    (object_id : string -> option Z) (st : store)
    (s : stored) (interactive : bool) (prompt : stored -> list (Z * stored) -> action)
    (now : Z) (n : Z) (st' : store) (q : string) :
  store_in doc_fits st s interactive prompt now = (Some n, st') ->
  query_of s = Some q -> Py.truthy q = true -> regex_ok q = true ->
  (forall e, In e (docs st) -> title_filter q (snd e) = false) ->
  get_wikipedia_document object_id (Some (docs st')) (Some q) None
  = Some (n, if Py.list_truthy (_find_duplicate_documents (docs st) s)
                && (negb interactive
                    || is_update (prompt s (_find_duplicate_documents (docs st) s)))
             then set_updated s now else s).
Proof.
  exact (get_after_store doc_fits object_id st s interactive prompt now n st' q).
Qed.

Lemma store_then_get_by_query_witness :
  get_wikipedia_document (fun _ => None)
    (Some (docs (snd (store_in (fun _ _ => true) (mk_store [] 1) q_stored true
                        (fun _ _ => Skip) 0))))
    (Some "q"%string) None
  = Some (1, if Py.list_truthy (_find_duplicate_documents [] q_stored)
                && (negb true || is_update (Skip))
             then set_updated q_stored 0 else q_stored).
Proof.
  apply (store_then_get_by_query (fun _ _ => true) (fun _ => None) (mk_store [] 1) q_stored
           true (fun _ _ => Skip) 0 1 _ "q");
    [vm_compute; reflexivity | vm_compute; reflexivity | reflexivity | vm_compute; reflexivity
    | intros e []].
Defined.

(** ** Section lookup *)

Lemma normalize_lower (a b : string) :
  Py.lower a = Py.lower b -> _normalize_section_key a = _normalize_section_key b.
Proof. unfold _normalize_section_key. intros ->. reflexivity. Qed.

Lemma section_lookup (text : string) (d : document) (section_title : string) :
  parse_markdown_content text = Ok d ->
  section_in_document d section_title =
    match sections d !! _normalize_section_key section_title with
    | Some s => Some (StoredSection s)
    | None =>
        if String.eqb (Py.lower section_title) "summary"
           || String.eqb (Py.lower section_title) "introduction"
        then Some (SummarySection "Summary" (summary d) 1
                     (length (Py.words (summary d))) (String.length (summary d)))
        else None
    end /\
  (forall k s, sections d !! k = Some s ->
     section_in_document d (title s) = Some (StoredSection s)).
Proof.
  intros Hp. destruct (parse_plain_sections text d Hp) as [Hk _]. split.
  - unfold section_in_document. cbv zeta.
    destruct (sections d !! _normalize_section_key section_title) as [s|] eqn:E;
      [reflexivity|].
    destruct (List.find _ (map_to_list (sections d))) as [[k s]|] eqn:F; [|reflexivity].
    exfalso. apply find_some in F as [Hin Heq]. cbn [snd] in Heq.
    apply String.eqb_eq in Heq.
    apply list_elem_of_In, elem_of_map_to_list in Hin.
    destruct (Hk k s Hin) as [Hks _].
    rewrite (normalize_lower _ _ Heq) in Hks. subst k. congruence.
  - intros k s Hs. destruct (Hk k s Hs) as [Hks _]. subst k.
    unfold section_in_document. cbv zeta. rewrite Hs. reflexivity.
Qed.

(** X10: in a parsed document, looking a section up by title only ever
    finds the section stored under the title's normalized key: the loop
    comparing lower-cased titles never finds a section the key missed,
    since sections are keyed by the normalized form of their own title;
    failing that, ["summary"] or ["introduction"] (any case) give the
    summary as a level-1 section. And every stored section is found by
    its own title. *)
Theorem section_lookup_parsed (text : string) (d : document) (section_title : string) :
  parse_markdown_content text = Ok d ->
  section_in_document d section_title =
    match sections d !! _normalize_section_key section_title with
    | Some s => Some (StoredSection s)
    | None =>
        if String.eqb (Py.lower section_title) "summary"
           || String.eqb (Py.lower section_title) "introduction"
        then Some (SummarySection "Summary" (summary d) 1
                     (length (Py.words (summary d))) (String.length (summary d)))
        else None
    end /\
  (forall k s, sections d !! k = Some s ->
     section_in_document d (title s) = Some (StoredSection s)).
Proof. exact (section_lookup text d section_title). Qed.

Lemma section_lookup_parsed_witness :
  parse_markdown_content stats_example_text = Ok stats_example_doc /\
  section_in_document stats_example_doc "INTRODUCTION"
  = match sections stats_example_doc !! _normalize_section_key "INTRODUCTION" with
    | Some s => Some (StoredSection s)
    | None =>
        if String.eqb (Py.lower "INTRODUCTION") "summary"
           || String.eqb (Py.lower "INTRODUCTION") "introduction"
        then Some (SummarySection "Summary" (summary stats_example_doc) 1
                     (length (Py.words (summary stats_example_doc)))
                     (String.length (summary stats_example_doc)))
        else None
    end.
Proof.
  split; [exact stats_example_parse|].
  exact (proj1 (section_lookup_parsed _ _ "INTRODUCTION" stats_example_parse)).
Defined.

(** ** Searching *)




Lemma filter_all_true {A} (f : A -> bool) (c : list A) :
  (forall e, f e = true) -> List.filter f c = c.
Proof. intros H. induction c as [|e c IH]; cbn; [reflexivity|]. rewrite H, IH. reflexivity. Qed.

Lemma regex_ci_empty (v : string) : regex_ci "" (Some v) = true.
Proof. destruct v; reflexivity. Qed.

Lemma highlight_empty_term (text : string) (n : nat) : _highlight_text text "" n = text.
Proof. unfold _highlight_text. rewrite orb_true_r. reflexivity. Qed.

(** X12: the empty search term matches everything: for every scope but
    ["titles"] and ["sections"], every document is returned, in natural
    order, and its matches are its whole summary followed by every
    section, each with its full, unhighlighted content. *)
Theorem search_empty_term (c : collection) (search_in : string) :
  search_in <> "titles"%string -> search_in <> "sections"%string ->
  search_content (Some c) "" search_in =
    map (fun e => mk_search_result (fst e) (default "Unknown" (query (sbody (snd e))))
                    (default "" (metadata (sbody (snd e)) !! "url"))
                    (SummaryMatch (summary (sbody (snd e)))
                     :: map (fun ks => SectionMatch (title (snd ks)) (content (snd ks)))
                          (map_to_list (sections (sbody (snd e)))))) c.
Proof.
  intros H1 H3. unfold search_content.
  assert (Hr : regex_ok "" = true) by reflexivity. rewrite Hr.
  assert (Hf : List.filter (fun e => search_filter "" search_in (snd e)) c = c).
  { apply filter_all_true. intros e. unfold search_filter.
    rewrite (proj2 (String.eqb_neq _ _) H1), (proj2 (String.eqb_neq _ _) H3).
    rewrite !regex_ci_empty.
    destruct (String.eqb search_in "summaries"); [reflexivity|].
    rewrite orb_true_r. reflexivity. }
  rewrite Hf. apply map_ext. intros [i s]. unfold search_result_of. cbn [fst snd].
  rewrite regex_ci_empty, highlight_empty_term. cbn [app]. do 2 f_equal.
  induction (map_to_list (sections (sbody s))) as [|ks l IH]; [reflexivity|].
  cbn [flat_map map]. rewrite regex_ci_empty, highlight_empty_term, IH. reflexivity.
Qed.

Lemma search_empty_term_witness :
  "all"%string <> "titles"%string /\ "all"%string <> "sections"%string /\
  search_content (Some [(1, q_stored)]) "" "all" =
    [mk_search_result 1 (default "Unknown" (query (sbody q_stored)))
       (default "" (metadata (sbody q_stored) !! "url"))
       (SummaryMatch (summary (sbody q_stored))
        :: map (fun ks => SectionMatch (title (snd ks)) (content (snd ks)))
             (map_to_list (sections (sbody q_stored))))].
Proof.
  assert (H1 : "all"%string <> "titles"%string) by discriminate.
  assert (H3 : "all"%string <> "sections"%string) by discriminate.
  split; [exact H1|]. split; [exact H3|].
  exact (search_empty_term [(1, q_stored)] "all" H1 H3).
Defined.

(** ** Listing *)

Lemma substring_short (s : string) (n : nat) :
  (String.length s <= n)%nat -> String.substring 0 n s = s.
Proof.
  revert n. induction s as [|c r IH]; intros n Hn; [destruct n; reflexivity|].
  destruct n as [|n]; cbn in Hn; [lia|]. cbn. rewrite IH by lia. reflexivity.
Qed.

(** X13: [list_wikipedia_documents] gives one entry per stored document,
    in natural order, with the document's id; each summary preview has
    at most 203 characters, starts with the first (up to) 200
    characters of the summary, and is the summary itself when that has
    at most 200 characters. *)
Theorem list_documents_previews (c : collection) (include_stats : bool) :
  map lid (list_wikipedia_documents (Some c) include_stats) = map fst c /\
  Forall2 (fun e l =>
      let sm := summary (sbody (snd e)) in
      (String.length (summary_preview l) <= 203)%nat /\
      Py.startswith (String.substring 0 200 sm) (summary_preview l) = true /\
      ((String.length sm <= 200)%nat -> summary_preview l = sm))
    c (list_wikipedia_documents (Some c) include_stats).
Proof.
  unfold list_wikipedia_documents. split.
  - rewrite map_map. reflexivity.
  - induction c as [|e c IH]; cbn [map]; constructor; [|exact IH].
    unfold listing_of. cbn [summary_preview]. cbv zeta.
    destruct (Nat.ltb_spec 200 (String.length (summary (sbody (snd e))))) as [Hl|Hl].
    + unfold Py.slice. cbn [Nat.sub]. split; [|split; [apply startswith_app|lia]].
      rewrite length_app_str. pose proof (length_substring_le (summary (sbody (snd e))) 0 200).
      cbn [String.length]. lia.
    + split; [lia|]. split; [|reflexivity].
      rewrite substring_short by exact Hl.
      rewrite <- (str_app_nil_r (summary (sbody (snd e)))) at 2. apply startswith_app.
Qed.

(** ** Storing a file *)





(** ** The agent's limit and section extraction *)

(** X15: the [limit] check of the agent's list and search handlers: the
    reported total is the length of the returned data; ['limited'] is
    set exactly when [limit] is non-zero and below the number of
    results; a limit of 0 returns everything and a positive one the
    first [limit] results; a negative limit is taken as a negative
    slice end, so the last [-limit] results are dropped (all of them if
    there are no more) and ['limited'] is set, even for no results. *)
Theorem limit_results_edges {A} (limit : Z) (xs : list A) :
  ltotal (limit_results limit xs) = length (ldata (limit_results limit xs)) /\
  (llimited (limit_results limit xs) = true <->
   limit <> 0 /\ limit < Z.of_nat (length xs)) /\
  (0 <= limit -> ldata (limit_results limit xs)
                 = if Z.eqb limit 0 then xs else firstn (Z.to_nat limit) xs) /\
  (limit < 0 -> llimited (limit_results limit xs) = true /\
                ldata (limit_results limit xs)
                = firstn (length xs - Z.to_nat (- limit)) xs).
Proof.
  unfold limit_results.
  destruct (Z.eqb_spec limit 0) as [E0|E0]; cbn [negb andb].
  - subst limit. cbn. split; [reflexivity|]. split; [split; [intros [=]|intros [H _]; lia]|].
    split; [reflexivity|lia].
  - destruct (Z.ltb_spec limit (Z.of_nat (length xs))) as [Hl|Hl]; cbn.
    + split; [reflexivity|]. split; [split; [intros _; auto|intros _; reflexivity]|].
      unfold slice_to.
      split.
      * intros Hp. rewrite (proj2 (Z.leb_le _ _) Hp).
        destruct (Z.eqb_spec limit 0); [contradiction|reflexivity].
      * intros Hn. split; [reflexivity|].
        replace (0 <=? limit) with false by (symmetry; apply Z.leb_gt; lia).
        f_equal. lia.
    + split; [reflexivity|]. split; [split; [intros [=]|intros [_ H]; lia]|]. split.
      * intros Hp. destruct (Z.eqb_spec limit 0); [contradiction|].
        symmetry. apply firstn_all2. lia.
      * intros Hn. lia.
Qed.

Lemma in_slice_to {A} (xs : list A) (stop : Z) (x : A) :
  In x (slice_to xs stop) -> In x xs.
Proof.
  unfold slice_to. intros H.
  destruct (0 <=? stop); match type of H with In x (firstn ?n xs) =>
    rewrite <- (firstn_skipn n xs); apply in_or_app; left; exact H end.
Qed.

Lemma length_slice_to_pos {A} (xs : list A) (stop : Z) :
  0 < stop -> (length (slice_to xs stop) <= Z.to_nat stop)%nat.
Proof.
  intros H. unfold slice_to. rewrite (proj2 (Z.leb_le 0 stop)) by lia.
  apply firstn_le_length.
Qed.

(** X16: [_extract_sections_from_document] returns only sections stored
    in the document, each under its own key and with its fields (a
    missing ['subsections'] as [[]]); with a non-empty filter, only
    those whose lower-cased title contains the lower-cased filter, and
    no summary; a positive [limit] bounds their number; without filter
    and limit, the list is every stored section, each once (the keys are
    distinct and every stored one is there), and the document info
    carries the summary. *)
Theorem extract_sections_spec (d : document) (section_filter : option string)
    (limit : Z) :
  (forall x, In x (snd (_extract_sections_from_document d section_filter limit)) ->
     exists s, sections d !! xkey x = Some s /\ x = extracted_of (xkey x, s) /\
       (truthy_opt section_filter = true ->
        title_has (Py.lower (default "" section_filter)) s = true)) /\
  (0 < limit ->
   (length (snd (_extract_sections_from_document d section_filter limit))
    <= Z.to_nat limit)%nat) /\
  (truthy_opt section_filter = false -> limit = 0 ->
   snd (_extract_sections_from_document d section_filter limit)
   = map extracted_of (map_to_list (sections d)) /\
   NoDup (map xkey (snd (_extract_sections_from_document d section_filter limit))) /\
   (forall k s, sections d !! k = Some s ->
      In (extracted_of (k, s)) (snd (_extract_sections_from_document d section_filter limit))) /\
   length (snd (_extract_sections_from_document d section_filter limit))
   = size (sections d) /\
   snd (fst (_extract_sections_from_document d section_filter limit)) = Some (summary d)) /\
  (snd (fst (_extract_sections_from_document d section_filter limit)) = None <->
   truthy_opt section_filter = true).
Proof.
  unfold _extract_sections_from_document. cbv zeta. cbn [fst snd].
  set (L := if truthy_opt section_filter then _ else _).
  assert (HL : forall x, In x L -> exists s, sections d !! xkey x = Some s /\
             x = extracted_of (xkey x, s) /\
             (truthy_opt section_filter = true ->
              title_has (Py.lower (default "" section_filter)) s = true)).
  { intros x Hx. unfold L in Hx.
    destruct (truthy_opt section_filter) eqn:Ef.
    - apply in_map_iff in Hx as [[k s] [<- Hin]].
      apply filter_In in Hin as [Hin Ht].
      apply list_elem_of_In, elem_of_map_to_list in Hin.
      exists s. split; [exact Hin|]. split; [reflexivity|]. intros _. exact Ht.
    - apply in_map_iff in Hx as [[k s] [<- Hin]].
      apply list_elem_of_In, elem_of_map_to_list in Hin.
      exists s. split; [exact Hin|]. split; [reflexivity|]. discriminate. }
  split; [|split; [|split]].
  - intros x Hx. apply HL.
    destruct (_ && _); [exact (in_slice_to _ _ _ Hx)|exact Hx].
  - intros Hp. destruct (negb (limit =? 0) && (limit <? Z.of_nat (length L))) eqn:E.
    + apply length_slice_to_pos, Hp.
    + apply andb_false_iff in E as [E|E].
      * rewrite (proj2 (Z.eqb_neq limit 0)) in E by lia. discriminate.
      * apply Z.ltb_ge in E. lia.
  - intros Hf ->. cbn [Z.eqb negb andb]. unfold L. rewrite Hf.
    split; [reflexivity|]. split; [|split; [|split]].
    + rewrite map_map. cbn [xkey extracted_of].
      change (map (fun x : string * section => fst x) (map_to_list (sections d)))
        with (map fst (map_to_list (sections d))).
      apply NoDup_fst_map_to_list.
    + intros k s Hs. apply in_map. apply list_elem_of_In, elem_of_map_to_list, Hs.
    + rewrite length_map. apply length_map_to_list.
    + reflexivity.
  - destruct (truthy_opt section_filter); split; try reflexivity; discriminate.
Qed.

(** ** From a stored file to one of its sections *)

(** X17: after [store_wikipedia_document] stores a text whose parsed
    document has a non-empty query [q] that MongoDB accepts as a
    [$regex] (no NUL character, at most 32764 bytes once escaped), into a
    collection where no document's query or metadata query contains [q],
    and returns an id, every section of that document is what
    [get_document_section(q, title)] returns for its title. *)
Theorem store_then_get_section (doc_fits : option Z -> stored -> bool)
    (object_id : string -> option Z) (st : store)
    (content : string) (source : option string) (interactive : bool)
    (prompt : stored -> list (Z * stored) -> action) (now : Z) (n : Z) (st' : store)
    (d : document) (q : string) (k : string) (sec : section) :
  parse_markdown_content content = Ok d ->
  store_wikipedia_document doc_fits (Some st) content source interactive prompt now
  = (Some n, Some st') ->
  query d = Some q -> Py.truthy q = true -> regex_ok q = true ->
  (forall e, In e (docs st) -> title_filter q (snd e) = false) ->
  sections d !! k = Some sec ->
  get_document_section object_id (Some (docs st')) q (title sec)
  = Some (StoredSection sec).
Proof.
  intros Hp Hs Hq Ht Hr Hno Hk.
  rewrite (store_parsed doc_fits st content source d interactive prompt now Hp) in Hs.
  assert (E : store_in doc_fits st (prepare d source) interactive prompt now = (Some n, st')).
  { destruct (store_in doc_fits st (prepare d source) interactive prompt now) as [r0 st0].
    cbn [fst snd] in Hs. injection Hs as -> ->. reflexivity. }
  unfold get_document_section.
  rewrite (get_after_store doc_fits object_id st (prepare d source) interactive prompt now n st'
             q E Hq Ht Hr Hno).
  destruct (_ && _); cbn [snd sbody set_updated prepare];
    exact (proj2 (section_lookup content d (title sec) Hp) k sec Hk).
Qed.

Definition section_example_text : string :=
  ("**Query:** q" ++ nl ++ stats_example_text)%string.

Definition section_example_doc : document :=
  match parse_markdown_content section_example_text with
  | Ok d => d
  | Raise _ => empty_document
  end.

Definition section_example_store : store :=
  match snd (store_wikipedia_document (fun _ _ => true) (Some (mk_store [] 1))
               section_example_text None true (fun _ _ => Skip) 0) with
  | Some st => st
  | None => mk_store [] 1
  end.

Lemma store_then_get_section_witness :
  get_document_section (fun _ => None) (Some (docs section_example_store)) "q"
    (title stats_example_section) = Some (StoredSection stats_example_section).
Proof.
  apply (store_then_get_section (fun _ _ => true) (fun _ => None) (mk_store [] 1)
           section_example_text None true (fun _ _ => Skip) 0 1 section_example_store
           section_example_doc "q" "h");
    try (vm_compute; reflexivity).
  intros e [].
Defined.

(** ** Fetching from Wikipedia ([_handle_fetch_operations]) *)

Lemma find_none_all {A} (f : A -> bool) (l : list A) :
  (forall x, In x l -> f x = false) -> List.find f l = None.
Proof.
  induction l as [|a l IH]; intros H; [reflexivity|]. cbn.
  rewrite (H a (or_introl eq_refl)). apply IH. intros x Hx. apply H. right. exact Hx.
Qed.

Lemma find_some_of_in {A} (f : A -> bool) (l : list A) (x : A) :
  In x l -> f x = true -> exists y, List.find f l = Some y /\ f y = true.
Proof.
  intros Hin Hx. destruct (List.find f l) as [y|] eqn:E.
  - exists y. split; [reflexivity|]. exact (proj2 (find_some _ _ E)).
  - rewrite (find_none _ _ E x Hin) in Hx. discriminate.
Qed.

Lemma replace_first_in (i : Z) (t : stored) (c : collection) (e : Z * stored) :
  In e (replace_first i t c) -> In e c \/ e = (i, t).
Proof.
  induction c as [|e' c IH]; cbn [replace_first]; [tauto|].
  destruct (fst e' =? i).
  - intros [<-|H]; [right; reflexivity|left; right; exact H].
  - intros [<-|H]; [left; left; reflexivity|].
    destruct (IH H) as [H'|H']; [left; right; exact H'|right; exact H'].
Qed.

Lemma replace_first_mem (i : Z) (t : stored) (c : collection) (e0 : Z * stored) :
  In e0 c -> fst e0 = i -> In (i, t) (replace_first i t c).
Proof.
  induction c as [|e' c IH]; intros Hin Hi; [destruct Hin|]. cbn [replace_first].
  destruct (Z.eqb_spec (fst e') i) as [E|E]; [left; reflexivity|].
  destruct Hin as [<-|Hin]; [contradiction|]. right. apply IH; assumption.
Qed.

Lemma store_in_docs (doc_fits : option Z -> stored -> bool) (st : store) (s : stored)
    (interactive : bool)
    (prompt : stored -> list (Z * stored) -> action) (now : Z) (n : Z) (st' : store) :
  store_in doc_fits st s interactive prompt now = (Some n, st') ->
  (In (n, s) (docs st') \/ In (n, set_updated s now) (docs st')) /\
  (forall e, In e (docs st') -> In e (docs st) \/ e = (n, s) \/ e = (n, set_updated s now)).
Proof.
  intros E. destruct (store_in_shape _ _ _ _ _ _ _ _ E) as [H|[[e0 [Hin H]]|[e0 [Hin [Hn H]]]]];
    rewrite H; split.
  - left. apply in_or_app. right. left. reflexivity.
  - intros e He. apply in_app_or in He as [He|[<-|[]]]; [left; exact He|right; left; reflexivity].
  - left. apply in_or_app. right. left. reflexivity.
  - intros e He. apply in_app_or in He as [He|[<-|[]]];
      [left; apply (delete_first_incl (fst e0)), He|right; left; reflexivity].
  - right. apply (replace_first_mem _ _ _ e0); [exact Hin|symmetry; exact Hn].
  - intros e He. apply replace_first_in in He as [He|He]; [left; exact He|right; right; exact He].
Qed.

Lemma store_in_refused_noninteractive (doc_fits : option Z -> stored -> bool) (st : store)
    (s : stored) (prompt : stored -> list (Z * stored) -> action) (now : Z) (st' : store) :
  store_in doc_fits st s false prompt now = (None, st') -> st' = st.
Proof.
  unfold store_in. destruct (_find_duplicate_documents (docs st) s).
  - destruct (accepts _ _ _); [unfold insert_one; discriminate|congruence].
  - destruct (accepts _ _ _); [discriminate|congruence].
Qed.

Lemma ci_prefix_length (p s : string) :
  ci_prefix p s = true -> (String.length p <= String.length s)%nat.
Proof.
  revert s. induction p as [|a p IH]; intros [|b s] H; cbn in *; try lia; try discriminate.
  apply andb_prop in H as [_ H]. specialize (IH s H). lia.
Qed.

Lemma ci_search_length (p s : string) (n : nat) :
  ci_search p s = Some n -> (String.length p <= String.length s)%nat.
Proof.
  revert n. induction s as [|c r IH]; intros n H; cbn [ci_search] in H.
  - destruct (ci_prefix p "") eqn:E; [|discriminate]. apply ci_prefix_length, E.
  - destruct (ci_prefix p (String c r)) eqn:E; [apply ci_prefix_length, E|].
    destruct (ci_search p r) as [m|] eqn:Em; [|discriminate].
    specialize (IH m eq_refl). cbn [String.length]. lia.
Qed.

Lemma lstrip_cases (s : string) :
  Py.lstrip s = s \/ (String.length (Py.lstrip s) < String.length s)%nat.
Proof.
  induction s as [|c r IH]; cbn [Py.lstrip]; [left; reflexivity|].
  destruct (Py.is_space c); [|left; reflexivity]. right. cbn [String.length].
  destruct IH as [->|IH]; lia.
Qed.

Lemma rstrip_cases (s : string) :
  Py.rstrip s = s \/ (String.length (Py.rstrip s) < String.length s)%nat.
Proof.
  induction s as [|c r IH]; cbn [Py.rstrip]; [left; reflexivity|].
  destruct (Py.is_space c && String.eqb (Py.rstrip r) EmptyString).
  - right. cbn [String.length]. lia.
  - destruct IH as [->|IH]; [left; reflexivity|right; cbn [String.length]; lia].
Qed.

Lemma strip_cases (s : string) :
  Py.strip s = s \/ (String.length (Py.strip s) < String.length s)%nat.
Proof.
  unfold Py.strip. destruct (lstrip_cases s) as [->|H]; [apply rstrip_cases|].
  right. destruct (rstrip_cases (Py.lstrip s)) as [->|H']; lia.
Qed.

Lemma regex_ci_strip (q : string) :
  Py.strip q <> q -> regex_ci q (Some (Py.strip q)) = false.
Proof.
  intros Hne. unfold regex_ci. destruct (ci_search q (Py.strip q)) as [n|] eqn:E; [|reflexivity].
  apply ci_search_length in E. destruct (strip_cases q) as [H|H]; [contradiction|lia].
Qed.

(** What the written file parses to, for the fetch path. *)
Lemma fetch_parse (q : string) (p : wiki_page) (timestamp : string) :
  no_newline (ptitle p) = true -> no_newline q = true -> no_newline (purl p) = true ->
  no_newline timestamp = true ->
  exists d,
    parse_markdown_content
      (markdown_file (ptitle p) q (purl p) "wiki" timestamp true
         (psummary p) (pfull_text p) (psections p)) = Ok d /\
    query d = Some (Py.strip q) /\ metadata d !! "query"%string = Some (Py.strip q).
Proof.
  intros Ht Hq Hu Hts.
  destruct (markdown_file_meta (ptitle p) q (purl p) "wiki" timestamp true
              (psummary p) (pfull_text p) (psections p) Ht Hq Hu eq_refl Hts)
    as [d [Hd [Hm [Hqd _]]]].
  exists d. split; [exact Hd|]. split; [exact Hqd|].
  rewrite Hm. rewrite !lookup_insert_ne by discriminate. apply lookup_insert_eq.
Qed.

Lemma fetch_run (doc_fits : option Z -> stored -> bool) (st : store) (q : string)
    (p : wiki_page) (timestamp file_stamp : string) (now : Z) (d : document) :
  parse_markdown_content
    (markdown_file (ptitle p) q (purl p) "wiki" timestamp true
       (psummary p) (pfull_text p) (psections p)) = Ok d ->
  _fetch_from_wikipedia_and_store doc_fits (Some st) q true (Some p) timestamp file_stamp
    true now
  = (match fst (store_in doc_fits st (prepare d (Some (markdown_path q file_stamp))) false
                  (fun _ _ => Skip) now) with
     | Some _ =>
         get_wikipedia_document (fun _ => None)
           (Some (docs (snd (store_in doc_fits st (prepare d (Some (markdown_path q file_stamp)))
                               false (fun _ _ => Skip) now)))) (Some q) None
     | None => None
     end,
     Some (snd (store_in doc_fits st (prepare d (Some (markdown_path q file_stamp))) false
                  (fun _ _ => Skip) now))).
Proof.
  intros Hd.
  unfold _fetch_from_wikipedia_and_store, save_full_text_to_markdown. cbn [negb].
  rewrite (store_parsed doc_fits st _ _ d false _ now Hd).
  destruct (store_in doc_fits st (prepare d (Some (markdown_path q file_stamp))) false
              (fun _ _ => Skip) now) as [[n|] st']; reflexivity.
Qed.

Lemma prepare_path_source (d : document) (q file_stamp : string) :
  source_file (prepare d (Some (markdown_path q file_stamp)))
  = Some (markdown_path q file_stamp).
Proof. reflexivity. Qed.

(** X18: when [_handle_fetch_operations] is asked for a non-empty query
    without surrounding whitespace that MongoDB accepts as a [$regex]
    (no NUL character, at most 32764 bytes once escaped), the database
    being available and the Wikipedia page found, written and read back
    (title, URL, query and timestamp without newlines, so the file
    parses to a document [d] whose query is the query): if some stored
    document's query or metadata query contains the query, the first
    such one is returned, cached, with the database unchanged; otherwise
    [d] is stored non-interactively, and when the write goes through the
    document returned, not cached, is the one just stored, under the id
    [store] returned: [d] with the markdown file as its ['source_file'],
    and ['updated_at'] set when it replaced a URL duplicate; when the
    write raises, the result is ['Could not retrieve information'] and
    the database is unchanged. *)
Theorem fetch_returns_document (doc_fits : option Z -> stored -> bool) (st : store)
    (q operation : string) (section_filter : option string) (limit : Z) (p : wiki_page)
    (timestamp file_stamp : string) (now : Z) :
  no_newline (ptitle p) = true -> no_newline q = true -> no_newline (purl p) = true ->
  no_newline timestamp = true -> Py.strip q = q -> Py.truthy q = true ->
  regex_ok q = true ->
  exists d,
    parse_markdown_content
      (markdown_file (ptitle p) q (purl p) "wiki" timestamp true
         (psummary p) (pfull_text p) (psections p)) = Ok d /\
    query d = Some q /\
    match List.find (fun e => title_filter q (snd e)) (docs st) with
    | Some e =>
        exists data,
          _handle_fetch_operations doc_fits (Some st) q operation section_filter limit true
            (Some p) timestamp file_stamp true now = (Fetched true e data, Some st)
    | None =>
        let s := prepare d (Some (markdown_path q file_stamp)) in
        match store_in doc_fits st s false (fun _ _ => Skip) now with
        | (Some n, st') =>
            exists data,
              _handle_fetch_operations doc_fits (Some st) q operation section_filter limit true
                (Some p) timestamp file_stamp true now
              = (Fetched false
                   (n, if Py.list_truthy (_find_duplicate_documents (docs st) s)
                       then set_updated s now else s) data, Some st')
        | (None, _) =>
            _handle_fetch_operations doc_fits (Some st) q operation section_filter limit true
              (Some p) timestamp file_stamp true now = (FetchError, Some st)
        end
    end.
Proof.
  intros Ht Hq Hu Hts Hs Htr Hr.
  destruct (fetch_parse q p timestamp Ht Hq Hu Hts) as [d [Hd [Hqd _]]].
  rewrite Hs in Hqd. exists d. split; [exact Hd|]. split; [exact Hqd|].
  unfold _handle_fetch_operations. cbn [option_map].
  rewrite get_by_query, Htr, Hr.
  destruct (List.find (fun e => title_filter q (snd e)) (docs st)) as [e|] eqn:G.
  - eexists. reflexivity.
  - pose proof (find_none _ _ G) as Hno. cbn beta in Hno. cbv zeta.
    rewrite (fetch_run doc_fits st q p timestamp file_stamp now d Hd).
    destruct (store_in doc_fits st (prepare d (Some (markdown_path q file_stamp))) false
                (fun _ _ => Skip) now) as [[n|] st'] eqn:E; cbn [fst snd].
    + rewrite (get_after_store doc_fits (fun _ => None) st _ false _ now n st' q E Hqd Htr Hr
                 Hno).
      cbn [negb orb]. rewrite andb_true_r. eexists. reflexivity.
    + rewrite (store_in_refused_noninteractive _ _ _ _ _ _ E). reflexivity.
Qed.

Definition fetch_example_page : wiki_page :=
  mk_wiki_page "Malaria" "https://en.wikipedia.org/wiki/Malaria" "S" "" [].

Lemma fetch_returns_document_witness :
  exists d,
    parse_markdown_content
      (markdown_file (ptitle fetch_example_page) "Malaria" (purl fetch_example_page) "wiki"
         "t" true (psummary fetch_example_page) (pfull_text fetch_example_page)
         (psections fetch_example_page)) = Ok d /\
    query d = Some "Malaria"%string /\
    match List.find (fun e => title_filter "Malaria" (snd e)) (docs (mk_store [] 1)) with
    | Some e =>
        exists data,
          _handle_fetch_operations (fun _ _ => true) (Some (mk_store [] 1)) "Malaria"
            "fetch_document" None 0 true (Some fetch_example_page) "t" "f" true 0
          = (Fetched true e data, Some (mk_store [] 1))
    | None =>
        let s := prepare d (Some (markdown_path "Malaria" "f")) in
        match store_in (fun _ _ => true) (mk_store [] 1) s false (fun _ _ => Skip) 0 with
        | (Some n, st') =>
            exists data,
              _handle_fetch_operations (fun _ _ => true) (Some (mk_store [] 1)) "Malaria"
                "fetch_document" None 0 true (Some fetch_example_page) "t" "f" true 0
              = (Fetched false
                   (n, if Py.list_truthy (_find_duplicate_documents (docs (mk_store [] 1)) s)
                       then set_updated s 0 else s) data, Some st')
        | (None, _) =>
            _handle_fetch_operations (fun _ _ => true) (Some (mk_store [] 1)) "Malaria"
              "fetch_document" None 0 true (Some fetch_example_page) "t" "f" true 0
            = (FetchError, Some (mk_store [] 1))
        end
    end.
Proof.
  apply (fetch_returns_document (fun _ _ => true) (mk_store [] 1) "Malaria" "fetch_document"
           None 0 fetch_example_page "t" "f" 0); vm_compute; reflexivity.
Defined.

(** X19: when the query has leading or trailing whitespace and no stored
    document's query or metadata query contains it, a fetch that finds,
    writes and reads back the page still ends with
    ['Could not retrieve information']: the file parses to a document
    [d], stored under the stripped query, which does not contain the
    query, so the lookup by the query after storing finds nothing. When
    the write of [d] goes through, the database then holds a document
    with the stripped query and the markdown file as its
    ['source_file']; when the write raises, the database is
    unchanged. *)
Theorem fetch_padded_query_error (doc_fits : option Z -> stored -> bool) (st : store)
    (q operation : string) (section_filter : option string) (limit : Z) (p : wiki_page)
    (timestamp file_stamp : string) (now : Z) :
  no_newline (ptitle p) = true -> no_newline q = true -> no_newline (purl p) = true ->
  no_newline timestamp = true -> Py.strip q <> q ->
  (forall e, In e (docs st) -> title_filter q (snd e) = false) ->
  exists d st',
    parse_markdown_content
      (markdown_file (ptitle p) q (purl p) "wiki" timestamp true
         (psummary p) (pfull_text p) (psections p)) = Ok d /\
    _handle_fetch_operations doc_fits (Some st) q operation section_filter limit true (Some p)
      timestamp file_stamp true now = (FetchError, Some st') /\
    (fst (store_in doc_fits st (prepare d (Some (markdown_path q file_stamp))) false
            (fun _ _ => Skip) now) = None -> st' = st) /\
    (fst (store_in doc_fits st (prepare d (Some (markdown_path q file_stamp))) false
            (fun _ _ => Skip) now) <> None ->
     exists e, In e (docs st') /\ query_of (snd e) = Some (Py.strip q) /\
               source_file (snd e) = Some (markdown_path q file_stamp)).
Proof.
  intros Ht Hq Hu Hts Hs Hno. unfold _handle_fetch_operations. cbn [option_map].
  rewrite get_by_query.
  assert (Hg : forall c : collection,
             (forall e : Z * stored, In e c -> title_filter q (snd e) = false) ->
             (if Py.truthy q then
                if regex_ok q then List.find (fun e : Z * stored => title_filter q (snd e)) c
                else None
              else None)
             = None).
  { intros c Hc. destruct (Py.truthy q); [|reflexivity].
    destruct (regex_ok q); [|reflexivity]. apply find_none_all, Hc. }
  rewrite (Hg _ Hno).
  destruct (fetch_parse q p timestamp Ht Hq Hu Hts) as [d [Hd [Hqd Hmq]]].
  exists d. rewrite (fetch_run doc_fits st q p timestamp file_stamp now d Hd).
  destruct (store_in doc_fits st (prepare d (Some (markdown_path q file_stamp))) false
              (fun _ _ => Skip) now) as [[n|] st'] eqn:E; cbn [fst snd].
  - exists st'. rewrite get_by_query.
    destruct (store_in_docs _ _ _ _ _ _ _ _ E) as [Hnew Hall].
    assert (Hf : title_filter q (prepare d (Some (markdown_path q file_stamp))) = false).
    { unfold title_filter, query_of, prepare. cbn [sbody]. rewrite Hqd, Hmq.
      rewrite (regex_ci_strip q Hs). reflexivity. }
    rewrite Hg.
    2:{ intros e He. destruct (Hall e He) as [H|[ -> | -> ]];
        [exact (Hno e H)|exact Hf|exact Hf]. }
    split; [exact Hd|]. split; [reflexivity|]. split; [discriminate|]. intros _.
    destruct Hnew as [H|H]; eexists; (split; [exact H|]); split; reflexivity || exact Hqd.
  - exists st. rewrite (store_in_refused_noninteractive _ _ _ _ _ _ E).
    split; [exact Hd|]. split; [reflexivity|]. split; [reflexivity|]. intros []. reflexivity.
Qed.

Lemma fetch_padded_query_error_witness :
  exists d st',
    parse_markdown_content
      (markdown_file (ptitle fetch_example_page) " Malaria" (purl fetch_example_page) "wiki"
         "t" true (psummary fetch_example_page) (pfull_text fetch_example_page)
         (psections fetch_example_page)) = Ok d /\
    _handle_fetch_operations (fun _ _ => true) (Some (mk_store [] 1)) " Malaria"
      "fetch_document" None 0 true (Some fetch_example_page) "t" "f" true 0
    = (FetchError, Some st') /\
    (fst (store_in (fun _ _ => true) (mk_store [] 1)
            (prepare d (Some (markdown_path " Malaria" "f"))) false (fun _ _ => Skip) 0)
     = None -> st' = mk_store [] 1) /\
    (fst (store_in (fun _ _ => true) (mk_store [] 1)
            (prepare d (Some (markdown_path " Malaria" "f"))) false (fun _ _ => Skip) 0)
     <> None ->
     exists e, In e (docs st') /\ query_of (snd e) = Some "Malaria"%string /\
               source_file (snd e) = Some (markdown_path " Malaria" "f")).
Proof.
  apply (fetch_padded_query_error (fun _ _ => true) (mk_store [] 1) " Malaria"
           "fetch_document" None 0 fetch_example_page "t" "f" 0); try (vm_compute; reflexivity).
  - discriminate.
  - intros e [].
Defined.

(** X20: a fetch with an empty query always ends with
    ['Could not retrieve information'], whatever the database holds and
    whatever the Wikipedia steps give: [get_wikipedia_document] returns
    [None] for an empty query, before and after storing. *)
Theorem fetch_empty_query_error (doc_fits : option Z -> stored -> bool)
    (coll : option store) (operation : string)
    (section_filter : option string) (limit : Z) (found : bool) (page : option wiki_page)
    (timestamp file_stamp : string) (read_ok : bool) (now : Z) :
  fst (_handle_fetch_operations doc_fits coll "" operation section_filter limit found page
         timestamp file_stamp read_ok now) = FetchError.
Proof.
  assert (Hg : forall c, get_wikipedia_document (fun _ => None) c (Some "") None = None)
    by (intros [c|]; reflexivity).
  unfold _handle_fetch_operations. rewrite Hg.
  unfold _fetch_from_wikipedia_and_store.
  destruct found; [|reflexivity]. cbn [negb].
  destruct (save_full_text_to_markdown "" page timestamp file_stamp) as [[path content]|];
    [|reflexivity].
  destruct read_ok; [|reflexivity]. cbn [negb].
  destruct (store_wikipedia_document doc_fits coll content (Some path) false _ now)
    as [[i|] c'];
    [rewrite Hg|]; reflexivity.
Qed.

(** X21: when some stored document's query or metadata query contains
    the (non-empty) query, case-insensitively, and MongoDB accepts the
    query as a [$regex] (no NUL character, at most 32764 bytes once
    escaped), [_handle_fetch_operations] answers from the database: the
    first such document in natural order, marked cached, with the
    database unchanged and Wikipedia not consulted. *)
Theorem fetch_cached_substring (doc_fits : option Z -> stored -> bool) (st : store)
    (q operation : string)
    (section_filter : option string) (limit : Z) (found : bool) (page : option wiki_page)
    (timestamp file_stamp : string) (read_ok : bool) (now : Z) (e0 : Z * stored) :
  Py.truthy q = true -> regex_ok q = true -> In e0 (docs st) ->
  title_filter q (snd e0) = true ->
  exists e data,
    _handle_fetch_operations doc_fits (Some st) q operation section_filter limit found page
      timestamp file_stamp read_ok now = (Fetched true e data, Some st) /\
    List.find (fun e => title_filter q (snd e)) (docs st) = Some e.
Proof.
  intros Htr Hr Hin H0. unfold _handle_fetch_operations. cbn [option_map].
  rewrite get_by_query, Htr, Hr.
  destruct (find_some_of_in (fun e => title_filter q (snd e)) _ e0 Hin H0) as [e [G _]].
  rewrite G. do 2 eexists. split; reflexivity.
Qed.

Definition vaccine_stored : stored :=
  mk_stored (mk_document ∅ (Some "Malaria vaccine") None None None "" ∅ [])
    None (document_statistics empty_document) None.

Lemma fetch_cached_substring_witness :
  exists e data,
    _handle_fetch_operations (fun _ _ => true) (Some (mk_store [(1, vaccine_stored)] 2))
      "malaria"
      "fetch_document" None 0 true None "t" "f" true 0
    = (Fetched true e data, Some (mk_store [(1, vaccine_stored)] 2)) /\
    List.find (fun e => title_filter "malaria" (snd e)) [(1, vaccine_stored)] = Some e.
Proof.
  apply (fetch_cached_substring (fun _ _ => true) (mk_store [(1, vaccine_stored)] 2) "malaria"
           "fetch_document" None 0 true None "t" "f" true 0 (1, vaccine_stored));
    [reflexivity | vm_compute; reflexivity | left; reflexivity | vm_compute; reflexivity].
Defined.
